(** * gl_textures: a textured, optionally spinning quad

    A shallow embedding of [main.go].  The program talks to three outside
    parties: the GLFW window system, the OpenGL driver and the image
    decoders.  Every call into them is recorded, in order, in a trace of
    [Call]s; every answer they give is read from a [World].  The numeric
    part of the frame loop (the spin accumulator and the rotation angle) is
    written once over an arithmetic interface and read twice: in IEEE
    binary64, which is what Go's [float64] is, and in exact real
    arithmetic, which is what the binary64 run approximates. *)

From Stdlib Require Import ZArith QArith Qabs Qminmax List String Ascii Bool.
From Stdlib Require Import Floats Reals Machin Qreals Lra Lia.
From ExtLib Require Import Structures.Monad.
Import ListNotations.
Import MonadNotation.

Local Open Scope list_scope.
Local Open Scope monad_scope.

(** ** Go: the few language rules the program relies on *)

Module Go.

(** An [error] value, identified with its message. *)
Definition error := string.

(** [errors.New]. *)
Definition errors_New (msg : string) : error := msg.

(** Division of two untyped integer constants is integer division,
    truncated toward zero; the quotient is converted to the parameter's
    type only afterwards. *)
Definition const_quo (a b : Z) : Z := Z.quot a b.

(** [fmt.Sprintf] of a format with one [%v] verb applied to a string:
    the text before the verb, the string, the text after it. *)
Definition Sprintf_v (before after arg : string) : string :=
  (before ++ arg ++ after)%string.

(** [len] of a slice, as a Go [int]. *)
Definition len {A : Type} (s : list A) : Z := Z.of_nat (List.length s).

End Go.

(** ** Arithmetic of the frame loop

    [spinCount] is a [float64], advanced by the constant [0.0005] and
    multiplied by [math.Pi]; the product is converted to [float32]. *)

Class Float64 (F : Type) := {
  f64_zero : F;
  f64_step : F;
  f64_pi : F;
  f64_add : F -> F -> F;
  f64_mul : F -> F -> F;
  f64_to_f32 : F -> F
}.

(** Rounding of a binary64 value to binary32 (24 bits of precision,
    exponents up to 128, ties to even), kept in a binary64 register:
    Go's conversion [float32(x)]. *)
Definition float32 (x : float) : float :=
  match Prim2SF x with
  | S754_finite s m e =>
      SF2Prim (binary_normalize 24 128 (cond_Zopp s (Zpos m)) e s)
  | _ => x
  end.

(** The program as it runs: IEEE binary64.  The two constants are the
    doubles nearest to 0.0005 and to pi. *)
#[export] Instance binary64 : Float64 float := {
  f64_zero := 0%float;
  f64_step := 0x1.0624dd2f1a9fcp-11%float;
  f64_pi := 0x1.921fb54442d18p+1%float;
  f64_add := PrimFloat.add;
  f64_mul := PrimFloat.mul;
  f64_to_f32 := float32
}.

(** The same program without rounding: real arithmetic. *)
#[export] Instance exact : Float64 R := {
  f64_zero := 0%R;
  f64_step := (5 / 10000)%R;
  f64_pi := PI;
  f64_add := Rplus;
  f64_mul := Rmult;
  f64_to_f32 := fun x => x
}.

(** The rational number a finite binary64 value denotes. *)
Definition B2Q (x : float) : Q :=
  match Prim2SF x with
  | S754_finite s m e => (inject_Z (cond_Zopp s (Zpos m)) * Qpower 2 e)%Q
  | _ => 0%Q
  end.

Definition is_finite (x : float) : bool :=
  match Prim2SF x with
  | S754_finite _ _ _ | S754_zero _ => true
  | _ => false
  end.

(** ** The OpenGL and GLFW vocabulary used by the program *)

Inductive GLenum :=
| ARRAY_BUFFER | ELEMENT_ARRAY_BUFFER | STATIC_DRAW
| TEXTURE0 | TEXTURE1 | TEXTURE_2D | RGBA | UNSIGNED_BYTE
| TEXTURE_MIN_FILTER | TEXTURE_MAG_FILTER | LINEAR
| VERTEX_SHADER | FRAGMENT_SHADER | COMPILE_STATUS | LINK_STATUS
| FLOAT | UNSIGNED_SHORT | TRIANGLE_STRIP | COLOR_BUFFER_BIT.

Inductive Hint :=
| ContextVersionMajor | ContextVersionMinor | OpenglProfile
| OpenglForwardCompatible.

Inductive HintValue := HintInt (n : Z) | OpenglCoreProfile | GL_TRUE.

Inductive Key := KeyEscape | KeyQ | KeyR | KeyOther (code : Z).

Inductive Action := Release | Press | Repeat.

(** What one [glfw.PollEvents] can deliver: key notifications, and the
    window manager's own close request (which sets the close flag without
    going through the key callback). *)
Inductive Event :=
| KeyEvent (key : Key) (scancode : Z) (action : Action) (mods : Z)
| CloseEvent.

(** Names of driver objects. *)
Definition VertexArray := nat.
Definition Buffer := nat.
Definition Texture := nat.
Definition Shader := nat.
Definition Program := nat.
Definition Location := Z.

(** Literal [GLfloat] constants of the source; all are dyadic and exact
    in binary32. *)
Definition GLfloat := Q.

Record Vec3 := mkVec3 { vx : Z; vy : Z; vz : Z }.

(** Matrices are built by the [glam] library, which is not part of this
    repository: a matrix is the call that builds it. *)
Inductive Mat4 (F : Type) :=
| Identity
| Rotation (angle : F) (axis : Vec3)
| LookAt (eye center up : Vec3)
| Perspective (fovy aspect zNear zFar : Z).

Arguments Identity {F}.
Arguments Rotation {F} angle axis.
Arguments LookAt {F} eye center up.
Arguments Perspective {F} fovy aspect zNear zFar.

Inductive BufferContents :=
| Floats (data : list GLfloat)
| Ushorts (data : list Z).

Record Rectangle := mkRect { MinX : Z; MinY : Z; MaxX : Z; MaxY : Z }.

Definition Dx (r : Rectangle) : Z := MaxX r - MinX r.
Definition Dy (r : Rectangle) : Z := MaxY r - MinY r.

(** [image.Rect(x0, y0, x1, y1)] for [x0 <= x1] and [y0 <= y1]. *)
Definition image_Rect (x0 y0 x1 y1 : Z) : Rectangle := mkRect x0 y0 x1 y1.

Record NRGBA := mkNRGBA { Pix : list Z; Rect : Rectangle }.

(** A decoded image: already an [*image.NRGBA], or some other kind, of
    which only the bounds matter here. *)
Inductive Image :=
| ImageNRGBA (img : NRGBA)
| ImageOther (bounds : Rectangle).

Definition Bounds (img : Image) : Rectangle :=
  match img with
  | ImageNRGBA n => Rect n
  | ImageOther b => b
  end.

(** The calls the program makes, with their arguments. *)
Inductive Call (F : Type) :=
| SetErrorCallback
| glfwInit
| WindowHint (hint : Hint) (value : HintValue)
| CreateWindow (width height : Z) (title : string)
| SetKeyCallback
| MakeContextCurrent
| glInitCall
| Terminate
| GenVertexArray (vao : VertexArray)
| BindVertexArray (vao : VertexArray)
| DeleteVertexArray (vao : VertexArray)
| GenBuffer (b : Buffer)
| BindBuffer (target : GLenum) (b : Buffer)
| BufferData (target : GLenum) (size : Z) (data : BufferContents)
    (usage : GLenum)
| DeleteBuffer (b : Buffer)
| GenTexture (t : Texture)
| ActiveTexture (unit : GLenum)
| BindTexture (target : GLenum) (t : Texture)
| TexImage2D (target : GLenum) (level : Z) (internalformat : GLenum)
    (width height border : Z) (format type : GLenum) (pixels : list Z)
| TexParameteri (target pname param : GLenum)
| DeleteTexture (t : Texture)
| CreateShader (type : GLenum) (s : Shader)
| ShaderSource (s : Shader) (source : string)
| CompileShader (s : Shader)
| GetShader (s : Shader) (pname : GLenum)
| DeleteShader (s : Shader)
| CreateProgram (p : Program)
| AttachShader (p : Program) (s : Shader)
| BindFragDataLocation (p : Program) (color : Z) (name : string)
| LinkProgram (p : Program)
| UseProgram (p : Program)
| DeleteProgram (p : Program)
| GetAttribLocation (p : Program) (name : string)
| AttribPointer (loc : Location) (size : Z) (type : GLenum)
    (normalized : bool) (stride offset : Z)
| EnableArray (loc : Location)
| GetUniformLocation (p : Program) (name : string)
| Uniform1i (loc : Location) (v : Z)
| UniformMatrix4fv (loc : Location) (transpose : bool) (m : Mat4 F)
| ClearColor (r g b a : GLfloat)
| Clear (mask : GLenum)
| DrawElements (mode : GLenum) (count : Z) (type : GLenum) (offset : Z)
| SwapBuffers
| PollEvents.

Arguments SetErrorCallback {F}.
Arguments glfwInit {F}.
Arguments WindowHint {F} hint value.
Arguments CreateWindow {F} width height title.
Arguments SetKeyCallback {F}.
Arguments MakeContextCurrent {F}.
Arguments glInitCall {F}.
Arguments Terminate {F}.
Arguments GenVertexArray {F} vao.
Arguments BindVertexArray {F} vao.
Arguments DeleteVertexArray {F} vao.
Arguments GenBuffer {F} b.
Arguments BindBuffer {F} target b.
Arguments BufferData {F} target size data usage.
Arguments DeleteBuffer {F} b.
Arguments GenTexture {F} t.
Arguments ActiveTexture {F} unit.
Arguments BindTexture {F} target t.
Arguments TexImage2D {F} target level internalformat width height border
  format type pixels.
Arguments TexParameteri {F} target pname param.
Arguments DeleteTexture {F} t.
Arguments CreateShader {F} type s.
Arguments ShaderSource {F} s source.
Arguments CompileShader {F} s.
Arguments GetShader {F} s pname.
Arguments DeleteShader {F} s.
Arguments CreateProgram {F} p.
Arguments AttachShader {F} p s.
Arguments BindFragDataLocation {F} p color name.
Arguments LinkProgram {F} p.
Arguments UseProgram {F} p.
Arguments DeleteProgram {F} p.
Arguments GetAttribLocation {F} p name.
Arguments AttribPointer {F} loc size type normalized stride offset.
Arguments EnableArray {F} loc.
Arguments GetUniformLocation {F} p name.
Arguments Uniform1i {F} loc v.
Arguments UniformMatrix4fv {F} loc transpose m.
Arguments ClearColor {F} r g b a.
Arguments Clear {F} mask.
Arguments DrawElements {F} mode count type offset.
Arguments SwapBuffers {F}.
Arguments PollEvents {F}.

(** ** The outside world

    One answer for every question the program asks.  [link_status] is
    what [LINK_STATUS] would report after [Link]; [events] lists, frame by
    frame, what each [PollEvents] delivers. *)
Record World := mkWorld {
  glfw_Init : bool;
  glfw_CreateWindow : option Go.error;
  gl_Init : Z;
  os_Open : string -> option Go.error;
  image_Decode : string -> Go.error + Image;
  draw_Draw : Image -> list Z;
  compile_status : GLenum -> string -> Z;
  link_status : bool;
  attrib_location : string -> Location;
  uniform_location : string -> Location;
  events : list (list Event)
}.

(** ** The program *)

(** The two shader sources, character for character. *)
Definition vertex_shader : string := "
	#version 150

	in vec2 position;
	in vec2 textureCoord;
	out vec2 TextureCoord;
	uniform mat4 model;
	uniform mat4 view;
	uniform mat4 projection;

	void main()
	{
	    TextureCoord = textureCoord;
	    gl_Position = projection * view * model * vec4(position, 0.0, 1.0);
	}
	"%string.

Definition fragment_shader : string := "
	#version 150

	out vec4 outColor;
	in vec2 TextureCoord;
	uniform sampler2D tex1;
	uniform sampler2D tex2;

	void main()
	{
	    outColor = texture(tex1, TextureCoord);
	}
"%string.

(** What the frame loop reads and writes: the window's close flag, the
    global [rotate] (line 48), and the locals [spinCount] and [modelMat]
    of [main]. *)
Record State (F : Type) := mkState {
  shouldClose : bool;
  rotate : bool;
  spinCount : F;
  modelMat : Mat4 F
}.

Arguments mkState {F} shouldClose rotate spinCount modelMat.
Arguments shouldClose {F} s.
Arguments rotate {F} s.
Arguments spinCount {F} s.
Arguments modelMat {F} s.

(** [window.SetShouldClose]. *)
Definition SetShouldClose {F : Type} (value : bool) (st : State F) : State F :=
  mkState value (rotate st) (spinCount st) (modelMat st).

(** Lines 54-63. *)
Definition keyCallback {F : Type} (key : Key) (scancode : Z)
    (action : Action) (mods : Z) (st : State F) : State F :=
  match action with
  | Press =>
      match key with
      | KeyEscape | KeyQ => SetShouldClose true st
      | KeyR =>
          mkState (shouldClose st) (negb (rotate st)) (spinCount st)
            (modelMat st)
      | KeyOther _ => st
      end
  | _ => st
  end.

(** State of a run: the calls made so far (oldest first), the calls
    deferred by [main] (latest first), and how many driver objects were
    named. *)
Record Machine (F : Type) := mkMachine {
  calls : list (Call F);
  defers : list (Call F);
  names : nat
}.

Arguments mkMachine {F} calls defers names.
Arguments calls {F} m.
Arguments defers {F} m.
Arguments names {F} m.

Inductive Result (A : Type) :=
| Ok (a : A)
| Panicking (e : Go.error).

Arguments Ok {A} a.
Arguments Panicking {A} e.

Definition M (F A : Type) : Type := Machine F -> Result A * Machine F.

#[export] Instance Monad_M (F : Type) : Monad (M F) := {
  ret := fun A (a : A) (m : Machine F) => (Ok a, m);
  bind := fun A B (c : M F A) (k : A -> M F B) (m : Machine F) =>
    match c m with
    | (Ok a, m') => k a m'
    | (Panicking e, m') => (Panicking e, m')
    end
}.

Definition emit {F : Type} (cs : list (Call F)) : M F unit :=
  fun m => (Ok tt, mkMachine (calls m ++ cs) (defers m) (names m)).

Definition call {F : Type} (c : Call F) : M F unit := emit [c].

Definition defer {F : Type} (c : Call F) : M F unit :=
  fun m => (Ok tt, mkMachine (calls m) (c :: defers m) (names m)).

(** The driver hands out object names; the model numbers them in order
    of creation. *)
Definition fresh {F : Type} : M F nat :=
  fun m => (Ok (S (names m)), mkMachine (calls m) (defers m) (S (names m))).

Definition panic {F A : Type} (e : Go.error) : M F A :=
  fun m => (Panicking e, m).

(** Lines 65-75. *)
Definition loadShader {F : Type} (w : World) (shaderType : GLenum)
    (source : string) : M F (Shader * option Go.error) :=
  shader <- fresh ;;
  call (CreateShader shaderType shader) ;;
  call (ShaderSource shader source) ;;
  call (CompileShader shader) ;;
  call (GetShader shader COMPILE_STATUS) ;;
  if (compile_status w shaderType source =? 0)%Z
  then ret (shader,
            Some (Go.errors_New
                    (Go.Sprintf_v "Shader (" ") did not compile." source)))
  else ret (shader, None).

(** Lines 77-99. *)
Definition loadImage (w : World) (filename : string) : Go.error + NRGBA :=
  match os_Open w filename with
  | Some err => inl err
  | None =>
      match image_Decode w filename with
      | inl err => inl err
      | inr img =>
          let bounds := Bounds img in
          let width := Dx bounds in
          let height := Dy bounds in
          match img with
          | ImageNRGBA nrgbaImg => inr nrgbaImg
          | ImageOther _ =>
              inr (mkNRGBA (draw_Draw w img) (image_Rect 0 0 width height))
          end
      end
  end.

(** Lines 101-114. *)
Definition loadTextureFromImage {F : Type} (w : World) (filename : string)
    (texture_id : GLenum) : M F (Texture * option Go.error) :=
  texture <- fresh ;;
  call (GenTexture texture) ;;
  match loadImage w filename with
  | inl err => ret (texture, Some err)
  | inr image =>
      let dims := Rect image in
      call (ActiveTexture texture_id) ;;
      call (BindTexture TEXTURE_2D texture) ;;
      call (TexImage2D TEXTURE_2D 0 RGBA (Dx dims) (Dy dims) 0 RGBA
              UNSIGNED_BYTE (Pix image)) ;;
      ret (texture, None)
  end.

(** Lines 116-140; the window itself carries no data here. *)
Definition glInit {F : Type} (w : World) : M F (option Go.error) :=
  call SetErrorCallback ;;
  call glfwInit ;;
  if negb (glfw_Init w)
  then ret (Some (Go.errors_New "Can't initialise GLFW!"))
  else
    call (WindowHint ContextVersionMajor (HintInt 3)) ;;
    call (WindowHint ContextVersionMinor (HintInt 2)) ;;
    call (WindowHint OpenglProfile OpenglCoreProfile) ;;
    call (WindowHint OpenglForwardCompatible GL_TRUE) ;;
    call (CreateWindow 640 480 "OpenGL Textures") ;;
    match glfw_CreateWindow w with
    | Some err => ret (Some err)
    | None =>
        call SetKeyCallback ;;
        call MakeContextCurrent ;;
        call glInitCall ;;
        if negb (gl_Init w =? 0)%Z
        then ret (Some (Go.errors_New "Can't initialise OpenGL."))
        else ret None
    end.

(** [if err != nil { panic(err) }]. *)
Definition check {F : Type} (err : option Go.error) : M F unit :=
  match err with
  | Some e => panic e
  | None => ret tt
  end.

(** Lines 153-154. *)
Definition vertices : list GLfloat :=
  [-0.5; -0.5; 0; 1; 0.5; -0.5; 1; 1; -0.5; 0.5; 0; 0; 0.5; 0.5; 1; 0]%Q.

Definition elements : list Z := [0; 1; 2; 3]%Z.

(** Lines 156-167. *)
Definition uploadGeometry {F : Type} : M F unit :=
  vao <- fresh ;;
  call (GenVertexArray vao) ;;
  call (BindVertexArray vao) ;;
  vbo <- fresh ;;
  call (GenBuffer vbo) ;;
  call (BindBuffer ARRAY_BUFFER vbo) ;;
  call (BufferData ARRAY_BUFFER (Go.len vertices * 4) (Floats vertices)
          STATIC_DRAW) ;;
  elementBuffer <- fresh ;;
  call (GenBuffer elementBuffer) ;;
  call (BindBuffer ELEMENT_ARRAY_BUFFER elementBuffer) ;;
  call (BufferData ELEMENT_ARRAY_BUFFER (Go.len elements * 2)
          (Ushorts elements) STATIC_DRAW) ;;
  defer (DeleteVertexArray vao) ;;
  defer (DeleteBuffer vbo) ;;
  defer (DeleteBuffer elementBuffer).

(** Lines 169-175 and 177-183: one texture, its unit and its filters. *)
Definition loadTexture {F : Type} (w : World) (filename : string)
    (texture_id : GLenum) : M F Texture :=
  r <- loadTextureFromImage w filename texture_id ;;
  check (snd r) ;;
  defer (DeleteTexture (fst r)) ;;
  call (TexParameteri TEXTURE_2D TEXTURE_MIN_FILTER LINEAR) ;;
  call (TexParameteri TEXTURE_2D TEXTURE_MAG_FILTER LINEAR) ;;
  ret (fst r).

(** Lines 169-183. *)
Definition loadTextures {F : Type} (w : World) : M F (Texture * Texture) :=
  texture1 <- loadTexture w "sloth_n_banana.jpg" TEXTURE0 ;;
  texture2 <- loadTexture w "sloth_n_kebab.jpg" TEXTURE1 ;;
  ret (texture1, texture2).

(** Lines 185-189 and 191-195: one shader stage. *)
Definition compileStage {F : Type} (w : World) (shaderType : GLenum)
    (source : string) : M F Shader :=
  r <- loadShader w shaderType source ;;
  check (snd r) ;;
  defer (DeleteShader (fst r)) ;;
  ret (fst r).

(** Lines 197-203. *)
Definition linkProgram {F : Type} (vertexShader fragmentShader : Shader)
    : M F Program :=
  shaderProgram <- fresh ;;
  call (CreateProgram shaderProgram) ;;
  call (AttachShader shaderProgram vertexShader) ;;
  call (AttachShader shaderProgram fragmentShader) ;;
  call (BindFragDataLocation shaderProgram 0 "outColor") ;;
  call (LinkProgram shaderProgram) ;;
  call (UseProgram shaderProgram) ;;
  defer (DeleteProgram shaderProgram) ;;
  ret shaderProgram.

(** Lines 205-211. *)
Definition describeVertices {F : Type} (w : World) (shaderProgram : Program)
    : M F unit :=
  call (GetAttribLocation shaderProgram "position") ;;
  call (AttribPointer (attrib_location w "position") 2 FLOAT false (4 * 4) 0) ;;
  call (EnableArray (attrib_location w "position")) ;;
  call (GetAttribLocation shaderProgram "textureCoord") ;;
  call (AttribPointer (attrib_location w "textureCoord") 2 FLOAT false
          (4 * 4) (2 * 4)) ;;
  call (EnableArray (attrib_location w "textureCoord")).

(** Lines 213-214. *)
Definition bindSamplers {F : Type} (w : World) (shaderProgram : Program)
    : M F unit :=
  call (GetUniformLocation shaderProgram "tex1") ;;
  call (Uniform1i (uniform_location w "tex1") 0) ;;
  call (GetUniformLocation shaderProgram "tex2") ;;
  call (Uniform1i (uniform_location w "tex2") 1).

(** Line 219. *)
Definition projectionMat {F : Type} : Mat4 F :=
  Perspective 45 (Go.const_quo 640 480) 1 10.

(** Line 235. *)
Definition viewMat {F : Type} : Mat4 F :=
  LookAt (mkVec3 1 0 1) (mkVec3 0 0 0) (mkVec3 0 0 1).

(** The loop's variables when the loop is entered: no event has been
    polled yet, so the close flag is down and [rotate] still has its
    initial value; lines 48, 218 and 222. *)
Definition loopEntry {F : Type} `{Float64 F} : State F :=
  mkState false true f64_zero Identity.

(** Lines 229-232. *)
Definition tick {F : Type} `{Float64 F} (st : State F) : State F :=
  if rotate st
  then mkState (shouldClose st) (rotate st)
         (f64_add (spinCount st) f64_step)
         (Rotation (f64_to_f32 (f64_mul (spinCount st) f64_pi))
            (mkVec3 0 0 1))
  else st.

(** [n] ticks in a row, no input in between. *)
Definition ticks {F : Type} `{Float64 F} (n : nat) (st : State F) : State F :=
  Nat.iter n tick st.

(** One event reaching the program. *)
Definition deliver {F : Type} (st : State F) (ev : Event) : State F :=
  match ev with
  | KeyEvent key scancode action mods => keyCallback key scancode action mods st
  | CloseEvent => SetShouldClose true st
  end.

(** [glfw.PollEvents] delivering [evs], in order. *)
Definition pollEvents {F : Type} (evs : list Event) (st : State F) : State F :=
  fold_left deliver evs st.

(** The calls of one iteration, lines 225-241, given the state after the
    tick. *)
Definition frameCalls {F : Type} (w : World) (shaderProgram : Program)
    (st : State F) : list (Call F) :=
  [ ClearColor 0 0 0 1;
    Clear COLOR_BUFFER_BIT;
    GetUniformLocation shaderProgram "model";
    UniformMatrix4fv (uniform_location w "model") false (modelMat st);
    GetUniformLocation shaderProgram "view";
    UniformMatrix4fv (uniform_location w "view") false viewMat;
    DrawElements TRIANGLE_STRIP 4 UNSIGNED_SHORT 0;
    SwapBuffers;
    PollEvents ].

(** One iteration of the loop body, lines 225-241: the state it leaves
    and the calls it makes. *)
Definition frame {F : Type} `{Float64 F} (w : World) (shaderProgram : Program)
    (evs : list Event) (st : State F) : State F * list (Call F) :=
  (pollEvents evs (tick st), frameCalls w shaderProgram (tick st)).

Inductive Phase := Running | ClosingRequested | Terminated.

(** Where the loop stands between two iterations. *)
Definition phase {F : Type} (st : State F) : Phase :=
  if shouldClose st then ClosingRequested else Running.

(** Lines 224-242, fed one list of events per [PollEvents].  When the
    input runs out with the flag still down the loop has not ended: the
    result is the run so far, in phase [Running]. *)
Fixpoint frameLoop {F : Type} `{Float64 F} (w : World) (shaderProgram : Program)
    (polls : list (list Event)) (st : State F)
    : list (Call F) * State F * Phase :=
  if shouldClose st then ([], st, Terminated)
  else
    match polls with
    | [] => ([], st, Running)
    | evs :: rest =>
        let '(cs, st', ph) :=
          frameLoop w shaderProgram rest (fst (frame w shaderProgram evs st)) in
        (snd (frame w shaderProgram evs st) ++ cs, st', ph)
    end.

(** Lines 146-243. *)
Definition mainBody {F : Type} `{Float64 F} (w : World) : M F (State F * Phase) :=
  err <- glInit w ;;
  check err ;;
  defer Terminate ;;
  uploadGeometry ;;
  _ <- loadTextures w ;;
  vertexShader <- compileStage w VERTEX_SHADER vertex_shader ;;
  fragmentShader <- compileStage w FRAGMENT_SHADER fragment_shader ;;
  shaderProgram <- linkProgram vertexShader fragmentShader ;;
  describeVertices w shaderProgram ;;
  bindSamplers w shaderProgram ;;
  call (GetUniformLocation shaderProgram "projection") ;;
  call (UniformMatrix4fv (uniform_location w "projection") false projectionMat) ;;
  let '(cs, st, ph) := frameLoop w shaderProgram (events w) loopEntry in
  emit cs ;;
  ret (st, ph).

Inductive Outcome :=
| Returned
| Panicked (e : Go.error)
| StillRunning.

Record Run (F : Type) := mkRun {
  outcome : Outcome;
  trace : list (Call F);
  last : option (State F)
}.

Arguments mkRun {F} outcome trace last.
Arguments outcome {F} r.
Arguments trace {F} r.
Arguments last {F} r.

(** The whole program.  When [main] returns or panics its deferred calls
    run, latest first. *)
Definition main {F : Type} `{Float64 F} (w : World) : Run F :=
  match mainBody w (mkMachine [] [] 0) with
  | (Ok (st, Terminated), m) => mkRun Returned (calls m ++ defers m) (Some st)
  | (Ok (st, _), m) => mkRun StillRunning (calls m) (Some st)
  | (Panicking e, m) => mkRun (Panicked e) (calls m ++ defers m) None
  end.

(** ** Reading traces, buffers and texts *)

Definition is_draw {F : Type} (c : Call F) : bool :=
  match c with
  | DrawElements _ _ _ _ => true
  | _ => false
  end.

(** Number of draw calls in a trace. *)
Definition draws {F : Type} (cs : list (Call F)) : nat :=
  List.length (filter is_draw cs).

(** What an attribute of [size] floats, laid out with [stride] and
    [offset] in bytes, reads for vertex [i] from a buffer of 4-byte
    floats. *)
Definition fetch (data : list GLfloat) (size stride offset : Z) (i : nat)
    : list GLfloat :=
  firstn (Z.to_nat size)
    (skipn (Z.to_nat ((offset + Z.of_nat i * stride) / 4)) data).

(** Vertices held by a buffer of 4-byte floats read with [stride]. *)
Definition vertex_count (data : list GLfloat) (stride : Z) : Z :=
  Go.len data * 4 / stride.

Definition lowest (l : list Q) : Q := fold_right Qmin (hd 0%Q l) l.
Definition highest (l : list Q) : Q := fold_right Qmax (hd 0%Q l) l.

(** The positions and texture coordinates the two attributes of
    [describeVertices] read for vertex [i]. *)
Definition position (i : nat) : list GLfloat := fetch vertices 2 (4 * 4) 0 i.
Definition textureCoord (i : nat) : list GLfloat :=
  fetch vertices 2 (4 * 4) (2 * 4) i.

Definition position_xs : list Q := map (fun i => nth 0 (position i) 0%Q) (seq 0 4).
Definition position_ys : list Q := map (fun i => nth 1 (position i) 0%Q) (seq 0 4).

(** [needle] occurs in [hay]. *)
Fixpoint containsb (needle hay : string) : bool :=
  if prefix needle hay then true
  else
    match hay with
    | EmptyString => false
    | String _ rest => containsb needle rest
    end.

(** The ways a text could name a shader stage: the constant's name, the
    plain word, or the constant's value in decimal or hexadecimal. *)
Definition stage_words (shaderType : GLenum) : list string :=
  match shaderType with
  | VERTEX_SHADER =>
      ["VERTEX_SHADER"; "vertex"; "Vertex"; "VERTEX"; "35633"; "8B31"; "8b31"]%string
  | FRAGMENT_SHADER =>
      ["FRAGMENT_SHADER"; "fragment"; "Fragment"; "FRAGMENT"; "35632"; "8B30";
       "8b30"]%string
  | _ => []
  end.

Definition mentions_stage (shaderType : GLenum) (text : string) : bool :=
  existsb (fun word => containsb word text) (stage_words shaderType).

(** The text of the error [loadShader] returns for [source]. *)
Definition compile_error_text (source : string) : string :=
  Go.Sprintf_v "Shader (" ") did not compile." source.

(** ** Binary64 against the exact law *)

(** The accumulator [s], reached after [n] ticks, is finite and within
    [1e-9] of [n * 0.0005]. *)
Definition spin_close (n : Z) (s : float) : bool :=
  is_finite s
  && Qle_bool (Qabs (B2Q s - inject_Z n * 0.0005)) 1e-9.

(** [spin_close] for [s] at [n] and for the [k] accumulators after it. *)
Fixpoint spin_close_upto (k : nat) (n : Z) (s : float) : bool :=
  spin_close n s
  && match k with
     | O => true
     | S k' => spin_close_upto k' (n + 1) (f64_add s f64_step)
     end.



(** ** Sample worlds *)

Definition sample_pixels : list Z :=
  [255; 0; 0; 255; 0; 255; 0; 255; 0; 0; 255; 255; 255; 255; 255; 255]%Z.

(** Everything succeeds at startup: both files open and decode to a
    2 by 2 image that is not yet NRGBA, both shaders compile, the program
    links; [polls] is what the successive [PollEvents] deliver. *)
Definition sample_world (polls : list (list Event)) : World :=
  mkWorld true None 0
    (fun _ => None)
    (fun _ => inr (ImageOther (mkRect 0 0 2 2)))
    (fun _ => sample_pixels)
    (fun _ _ => 1%Z)
    true
    (fun name => if String.eqb name "position" then 0%Z else 1%Z)
    (fun name =>
       if String.eqb name "model" then 0%Z
       else if String.eqb name "view" then 1%Z
       else if String.eqb name "projection" then 2%Z
       else if String.eqb name "tex1" then 3%Z
       else if String.eqb name "tex2" then 4%Z else (-1)%Z)
    polls.

(** The same world with another link status. *)
Definition with_link_status (b : bool) (w : World) : World :=
  mkWorld (glfw_Init w) (glfw_CreateWindow w) (gl_Init w) (os_Open w)
    (image_Decode w) (draw_Draw w) (compile_status w) b (attrib_location w)
    (uniform_location w) (events w).

(** The same world with another compiler verdict. *)
Definition with_compile_status (f : GLenum -> string -> Z) (w : World) : World :=
  mkWorld (glfw_Init w) (glfw_CreateWindow w) (gl_Init w) (os_Open w)
    (image_Decode w) (draw_Draw w) f (link_status w) (attrib_location w)
    (uniform_location w) (events w).

Definition quit_press : Event := KeyEvent KeyEscape 9 Press 0.
Definition toggle_press : Event := KeyEvent KeyR 27 Press 0.

(** Three frames, the quit key arriving during the third poll. *)
Definition three_frames : list (list Event) := [[]; []; [quit_press]].

(** ** Expected call sequences *)

(** The steps of a texture load for texture [t] on unit [texture_id], as
    the specification lists them: generate the texture, activate the
    unit, bind to the 2-D target, upload level 0 with RGBA internal and
    source format and unsigned-byte components, set the minification and
    magnification filters to linear. *)
Definition texture_load_steps {F : Type} (texture_id : GLenum) (t : Texture)
    (image : NRGBA) : list (Call F) :=
  [ GenTexture t;
    ActiveTexture texture_id;
    BindTexture TEXTURE_2D t;
    TexImage2D TEXTURE_2D 0 RGBA (Dx (Rect image)) (Dy (Rect image)) 0 RGBA
      UNSIGNED_BYTE (Pix image);
    TexParameteri TEXTURE_2D TEXTURE_MIN_FILTER LINEAR;
    TexParameteri TEXTURE_2D TEXTURE_MAG_FILTER LINEAR ].

(** The calls of a shader compilation. *)
Definition compile_steps {F : Type} (shaderType : GLenum) (s : Shader)
    (source : string) : list (Call F) :=
  [ CreateShader shaderType s;
    ShaderSource s source;
    CompileShader s;
    GetShader s COMPILE_STATUS ].

(** The calls of the link step: no query of the link status among them. *)
Definition link_steps {F : Type} (p : Program) (vertexShader fragmentShader : Shader)
    : list (Call F) :=
  [ CreateProgram p;
    AttachShader p vertexShader;
    AttachShader p fragmentShader;
    BindFragDataLocation p 0 "outColor";
    LinkProgram p;
    UseProgram p ].

(** The calls of the geometry upload for array [vao] and buffers [vbo]
    and [ebo]. *)
Definition geometry_steps {F : Type} (vao : VertexArray) (vbo ebo : Buffer)
    : list (Call F) :=
  [ GenVertexArray vao;
    BindVertexArray vao;
    GenBuffer vbo;
    BindBuffer ARRAY_BUFFER vbo;
    BufferData ARRAY_BUFFER 64 (Floats vertices) STATIC_DRAW;
    GenBuffer ebo;
    BindBuffer ELEMENT_ARRAY_BUFFER ebo;
    BufferData ELEMENT_ARRAY_BUFFER 8 (Ushorts elements) STATIC_DRAW ].

(** The attribute layout: two floats of position at byte 0 and two of
    texture coordinate at byte 8 of every 16-byte vertex. *)
Definition layout_steps {F : Type} (w : World) (p : Program) : list (Call F) :=
  [ GetAttribLocation p "position";
    AttribPointer (attrib_location w "position") 2 FLOAT false 16 0;
    EnableArray (attrib_location w "position");
    GetAttribLocation p "textureCoord";
    AttribPointer (attrib_location w "textureCoord") 2 FLOAT false 16 8;
    EnableArray (attrib_location w "textureCoord") ].

Definition window_steps {F : Type} : list (Call F) :=
  [ SetErrorCallback;
    glfwInit;
    WindowHint ContextVersionMajor (HintInt 3);
    WindowHint ContextVersionMinor (HintInt 2);
    WindowHint OpenglProfile OpenglCoreProfile;
    WindowHint OpenglForwardCompatible GL_TRUE;
    CreateWindow 640 480 "OpenGL Textures";
    SetKeyCallback;
    MakeContextCurrent;
    glInitCall ].

Definition uniform_steps {F : Type} (w : World) (p : Program) : list (Call F) :=
  [ GetUniformLocation p "tex1";
    Uniform1i (uniform_location w "tex1") 0;
    GetUniformLocation p "tex2";
    Uniform1i (uniform_location w "tex2") 1;
    GetUniformLocation p "projection";
    UniformMatrix4fv (uniform_location w "projection") false
      (Perspective 45 1 1 10) ].

(** Everything [main] calls before the loop when nothing fails: driver
    objects are named 1 to 8 in order of creation. *)
Definition startup_steps {F : Type} (w : World) (image1 image2 : NRGBA)
    : list (Call F) :=
  window_steps ++ geometry_steps 1%nat 2%nat 3%nat
  ++ texture_load_steps TEXTURE0 4%nat image1
  ++ texture_load_steps TEXTURE1 5%nat image2
  ++ compile_steps VERTEX_SHADER 6%nat vertex_shader
  ++ compile_steps FRAGMENT_SHADER 7%nat fragment_shader
  ++ link_steps 8%nat 6%nat 7%nat ++ layout_steps w 8%nat
  ++ uniform_steps w 8%nat.

(** What [main] has deferred by then, latest first. *)
Definition teardown_steps {F : Type} : list (Call F) :=
  [ DeleteProgram 8%nat; DeleteShader 7%nat; DeleteShader 6%nat;
    DeleteTexture 5%nat; DeleteTexture 4%nat; DeleteBuffer 3%nat;
    DeleteBuffer 2%nat; DeleteVertexArray 1%nat; Terminate ].

(** Nothing fails at startup: the window system and the driver come up,
    both image files load, both shaders compile. *)
Definition startup_succeeds (w : World) (image1 image2 : NRGBA) : Prop :=
  glfw_Init w = true
  /\ glfw_CreateWindow w = None
  /\ gl_Init w = 0%Z
  /\ loadImage w "sloth_n_banana.jpg" = inr image1
  /\ loadImage w "sloth_n_kebab.jpg" = inr image2
  /\ compile_status w VERTEX_SHADER vertex_shader <> 0%Z
  /\ compile_status w FRAGMENT_SHADER fragment_shader <> 0%Z.

(** The image both files of [sample_world] decode to. *)
Definition sample_image : NRGBA := mkNRGBA sample_pixels (mkRect 0 0 2 2).

(** A world whose compiler rejects every source. *)
Definition rejecting_world : World :=
  with_compile_status (fun _ _ => 0%Z) (sample_world []).

(** A world in which linking fails; three frames are played. *)
Definition unlinked_world : World :=
  with_link_status false (sample_world three_frames).

(** ** Events, read on their own *)

(** The events that raise the close flag: a press of Escape or Q, and
    the window manager's close request. *)
Definition is_quit (ev : Event) : bool :=
  match ev with
  | KeyEvent KeyEscape _ Press _ => true
  | KeyEvent KeyQ _ Press _ => true
  | CloseEvent => true
  | _ => false
  end.

(** The events that flip [rotate]: a press of R. *)
Definition is_toggle (ev : Event) : bool :=
  match ev with
  | KeyEvent KeyR _ Press _ => true
  | _ => false
  end.

Definition quits (evs : list Event) : bool := existsb is_quit evs.

Definition toggles (evs : list Event) : nat :=
  List.length (filter is_toggle evs).

(** Iterations a loop that is running makes on [polls]: one per poll, up
    to and including the first poll that delivers a quit. *)
Fixpoint frames_played (polls : list (list Event)) : nat :=
  match polls with
  | [] => 0
  | evs :: rest => S (if quits evs then 0 else frames_played rest)
  end.

Definition quit_seen (polls : list (list Event)) : bool :=
  existsb quits polls.

(** Of those iterations, the ones that find [rotate] on, when it is [r]
    at the start. *)
Fixpoint enabled_frames (r : bool) (polls : list (list Event)) : nat :=
  match polls with
  | [] => 0
  | evs :: rest =>
      (if r then 1 else 0)
      + (if quits evs then 0
         else enabled_frames (xorb r (Nat.odd (toggles evs))) rest)
  end.

(** The accumulator after [k] additions of the step. *)
Definition spin_after {F : Type} `{Float64 F} (k : nat) (s : F) : F :=
  Nat.iter k (fun x => f64_add x f64_step) s.

(** ** Driver objects in a trace *)

Inductive Object :=
| ObjVertexArray (n : nat)
| ObjBuffer (n : nat)
| ObjTexture (n : nat)
| ObjShader (n : nat)
| ObjProgram (n : nat).

Definition creates {F : Type} (c : Call F) : option Object :=
  match c with
  | GenVertexArray vao => Some (ObjVertexArray vao)
  | GenBuffer b => Some (ObjBuffer b)
  | GenTexture t => Some (ObjTexture t)
  | CreateShader _ s => Some (ObjShader s)
  | CreateProgram p => Some (ObjProgram p)
  | _ => None
  end.

Definition releases {F : Type} (c : Call F) : option Object :=
  match c with
  | DeleteVertexArray vao => Some (ObjVertexArray vao)
  | DeleteBuffer b => Some (ObjBuffer b)
  | DeleteTexture t => Some (ObjTexture t)
  | DeleteShader s => Some (ObjShader s)
  | DeleteProgram p => Some (ObjProgram p)
  | _ => None
  end.

Fixpoint pick {A B : Type} (f : A -> option B) (l : list A) : list B :=
  match l with
  | [] => []
  | a :: rest =>
      match f a with
      | Some b => b :: pick f rest
      | None => pick f rest
      end
  end.

(** The objects a trace creates, and the objects it deletes, in order. *)
Definition created {F : Type} (cs : list (Call F)) : list Object :=
  pick creates cs.

Definition released {F : Type} (cs : list (Call F)) : list Object :=
  pick releases cs.

Definition is_terminate {F : Type} (c : Call F) : bool :=
  match c with
  | Terminate => true
  | _ => false
  end.

(** ** How far startup gets *)

Inductive Startup :=
| NoGLFW
| NoWindow (e : Go.error)
| NoOpenGL
| NoTexture1 (e : Go.error)
| NoTexture2 (image1 : NRGBA) (e : Go.error)
| NoVertexShader (image1 image2 : NRGBA)
| NoFragmentShader (image1 image2 : NRGBA)
| Started (image1 image2 : NRGBA).

(** The first startup step that fails in world [w], in the order in
    which [main] takes them. *)
Definition startup (w : World) : Startup :=
  if negb (glfw_Init w) then NoGLFW
  else
    match glfw_CreateWindow w with
    | Some e => NoWindow e
    | None =>
        if negb (gl_Init w =? 0)%Z then NoOpenGL
        else
          match loadImage w "sloth_n_banana.jpg" with
          | inl e => NoTexture1 e
          | inr image1 =>
              match loadImage w "sloth_n_kebab.jpg" with
              | inl e => NoTexture2 image1 e
              | inr image2 =>
                  if (compile_status w VERTEX_SHADER vertex_shader =? 0)%Z
                  then NoVertexShader image1 image2
                  else
                    if (compile_status w FRAGMENT_SHADER fragment_shader =? 0)%Z
                    then NoFragmentShader image1 image2
                    else Started image1 image2
              end
          end
    end.

(** The run of [main] in each case, written out. *)
Definition expected_run {F : Type} `{Float64 F} (w : World) : Run F :=
  match startup w with
  | NoGLFW =>
      mkRun (Panicked (Go.errors_New "Can't initialise GLFW!"))
        [SetErrorCallback; glfwInit] None
  | NoWindow e =>
      mkRun (Panicked e)
        [ SetErrorCallback; glfwInit;
          WindowHint ContextVersionMajor (HintInt 3);
          WindowHint ContextVersionMinor (HintInt 2);
          WindowHint OpenglProfile OpenglCoreProfile;
          WindowHint OpenglForwardCompatible GL_TRUE;
          CreateWindow 640 480 "OpenGL Textures" ]
        None
  | NoOpenGL =>
      mkRun (Panicked (Go.errors_New "Can't initialise OpenGL."))
        window_steps None
  | NoTexture1 e =>
      mkRun (Panicked e)
        (window_steps ++ geometry_steps 1%nat 2%nat 3%nat
         ++ [GenTexture 4%nat]
         ++ [ DeleteBuffer 3%nat; DeleteBuffer 2%nat; DeleteVertexArray 1%nat;
              Terminate ])
        None
  | NoTexture2 image1 e =>
      mkRun (Panicked e)
        (window_steps ++ geometry_steps 1%nat 2%nat 3%nat
         ++ texture_load_steps TEXTURE0 4%nat image1
         ++ [GenTexture 5%nat]
         ++ [ DeleteTexture 4%nat; DeleteBuffer 3%nat; DeleteBuffer 2%nat;
              DeleteVertexArray 1%nat; Terminate ])
        None
  | NoVertexShader image1 image2 =>
      mkRun (Panicked (compile_error_text vertex_shader))
        (window_steps ++ geometry_steps 1%nat 2%nat 3%nat
         ++ texture_load_steps TEXTURE0 4%nat image1
         ++ texture_load_steps TEXTURE1 5%nat image2
         ++ compile_steps VERTEX_SHADER 6%nat vertex_shader
         ++ [ DeleteTexture 5%nat; DeleteTexture 4%nat; DeleteBuffer 3%nat;
              DeleteBuffer 2%nat; DeleteVertexArray 1%nat; Terminate ])
        None
  | NoFragmentShader image1 image2 =>
      mkRun (Panicked (compile_error_text fragment_shader))
        (window_steps ++ geometry_steps 1%nat 2%nat 3%nat
         ++ texture_load_steps TEXTURE0 4%nat image1
         ++ texture_load_steps TEXTURE1 5%nat image2
         ++ compile_steps VERTEX_SHADER 6%nat vertex_shader
         ++ compile_steps FRAGMENT_SHADER 7%nat fragment_shader
         ++ [ DeleteShader 6%nat; DeleteTexture 5%nat; DeleteTexture 4%nat;
              DeleteBuffer 3%nat; DeleteBuffer 2%nat; DeleteVertexArray 1%nat;
              Terminate ])
        None
  | Started image1 image2 =>
      match snd (frameLoop w 8%nat (events w) loopEntry) with
      | Terminated =>
          mkRun Returned
            ((startup_steps w image1 image2
              ++ fst (fst (frameLoop w 8%nat (events w) loopEntry)))
             ++ teardown_steps)
            (Some (snd (fst (frameLoop w 8%nat (events w) loopEntry))))
      | _ =>
          mkRun StillRunning
            (startup_steps w image1 image2
             ++ fst (fst (frameLoop w 8%nat (events w) loopEntry)))
            (Some (snd (fst (frameLoop w 8%nat (events w) loopEntry))))
      end
  end.

(** A world like [sample_world] in everything but the answers given at
    startup. *)
Definition startup_world (init : bool) (window : option Go.error) (gl : Z)
    (open : string -> option Go.error) (status : GLenum -> string -> Z)
    : World :=
  mkWorld init window gl open (image_Decode (sample_world []))
    (draw_Draw (sample_world [])) status true
    (attrib_location (sample_world [])) (uniform_location (sample_world []))
    three_frames.

(** The second image file cannot be opened. *)
Definition no_kebab (filename : string) : option Go.error :=
  if String.eqb filename "sloth_n_kebab.jpg"
  then Some "open sloth_n_kebab.jpg: no such file or directory"%string
  else None.

(** The compiler rejects fragment shaders only. *)
Definition rejects_fragment (shaderType : GLenum) (source : string) : Z :=
  match shaderType with
  | FRAGMENT_SHADER => 0%Z
  | _ => 1%Z
  end.

(** ** Proof automation *)

(** Steps a monadic block down to the machine it is applied to. *)
Ltac run_block :=
  cbv [bind ret Monad_M call emit defer fresh panic check
       calls defers names fst snd negb];
  rewrite <- ?app_assoc; cbn [app].

(** * Properties *)

(** ** The tick and the poll *)

Section Loop.

Context {F : Type} `{Float64 F}.

Lemma tick_rotate (st : State F) : rotate (tick st) = rotate st.
Proof. unfold tick. destruct (rotate st) eqn:E; simpl; auto. Qed.

Lemma tick_shouldClose (st : State F) : shouldClose (tick st) = shouldClose st.
Proof. unfold tick. destruct (rotate st); reflexivity. Qed.

Lemma tick_off (st : State F) : rotate st = false -> tick st = st.
Proof. intros E. unfold tick. rewrite E. reflexivity. Qed.

Lemma tick_on (st : State F) :
  rotate st = true ->
  tick st =
  mkState (shouldClose st) true (f64_add (spinCount st) f64_step)
    (Rotation (f64_to_f32 (f64_mul (spinCount st) f64_pi)) (mkVec3 0 0 1)).
Proof. intros E. unfold tick. rewrite E. reflexivity. Qed.

Lemma ticks_S (n : nat) (st : State F) : ticks (S n) st = tick (ticks n st).
Proof. reflexivity. Qed.

Lemma ticks_rotate (n : nat) (st : State F) : rotate (ticks n st) = rotate st.
Proof.
  induction n as [|n IH]; [reflexivity|].
  rewrite ticks_S, tick_rotate. exact IH.
Qed.

Lemma ticks_off (n : nat) (st : State F) : rotate st = false -> ticks n st = st.
Proof.
  intros E. induction n as [|n IH]; [reflexivity|].
  rewrite ticks_S, IH. apply tick_off, E.
Qed.

(** Ticking [n] times with rotation on adds the step [n] times, the
    first addition being the innermost. *)
Lemma ticks_on_spin (n : nat) (st : State F) :
  rotate st = true ->
  spinCount (ticks n st) =
  Nat.iter n (fun s => f64_add s f64_step) (spinCount st).
Proof.
  intros E. induction n as [|n IH]; [reflexivity|].
  rewrite ticks_S, tick_on by (rewrite ticks_rotate; exact E).
  simpl. rewrite IH. reflexivity.
Qed.

(** Events reach the close flag and [rotate] only. *)
Lemma deliver_spin (st : State F) (ev : Event) :
  spinCount (deliver st ev) = spinCount st
  /\ modelMat (deliver st ev) = modelMat st.
Proof.
  destruct ev as [key sc [| |] mods|]; simpl; auto.
  destruct key; simpl; auto.
Qed.

Lemma pollEvents_spin (evs : list Event) (st : State F) :
  spinCount (pollEvents evs st) = spinCount st
  /\ modelMat (pollEvents evs st) = modelMat st.
Proof.
  revert st. induction evs as [|ev evs IH]; intros st; [split; reflexivity|].
  unfold pollEvents in *. simpl.
  destruct (IH (deliver st ev)) as [Hs Hm].
  destruct (deliver_spin st ev) as [Hs' Hm'].
  split; congruence.
Qed.

(** Nothing in the program lowers the close flag. *)
Lemma deliver_close_sticky (st : State F) (ev : Event) :
  shouldClose st = true -> shouldClose (deliver st ev) = true.
Proof.
  intros E. destruct ev as [key sc [| |] mods|]; simpl; auto.
  destruct key; simpl; auto.
Qed.

Lemma pollEvents_close_sticky (evs : list Event) (st : State F) :
  shouldClose st = true -> shouldClose (pollEvents evs st) = true.
Proof.
  revert st. induction evs as [|ev evs IH]; intros st E; [exact E|].
  unfold pollEvents in *. simpl. apply IH, deliver_close_sticky, E.
Qed.

Lemma pollEvents_quit (evs : list Event) (st : State F)
    (key : Key) (scancode mods : Z) :
  key = KeyEscape \/ key = KeyQ ->
  In (KeyEvent key scancode Press mods) evs ->
  shouldClose (pollEvents evs st) = true.
Proof.
  intros Hk. revert st.
  induction evs as [|ev evs IH]; intros st Hin; [contradiction|].
  unfold pollEvents in *. simpl.
  destruct Hin as [->|Hin]; [|apply IH, Hin].
  apply (pollEvents_close_sticky evs).
  destruct Hk as [->| ->]; reflexivity.
Qed.

(** An idle poll changes nothing. *)
Lemma pollEvents_nil (st : State F) : pollEvents [] st = st.
Proof. reflexivity. Qed.

Lemma frameLoop_closed (w : World) (p : Program) (polls : list (list Event))
    (st : State F) :
  shouldClose st = true -> frameLoop w p polls st = ([], st, Terminated).
Proof. intros E. destruct polls; simpl; rewrite E; reflexivity. Qed.

Lemma frameLoop_step (w : World) (p : Program) (evs : list Event)
    (rest : list (list Event)) (st : State F) :
  shouldClose st = false ->
  frameLoop w p (evs :: rest) st =
  (let '(cs, st', ph) := frameLoop w p rest (fst (frame w p evs st)) in
   (snd (frame w p evs st) ++ cs, st', ph)).
Proof. intros E. simpl. rewrite E. reflexivity. Qed.

Lemma draws_frameCalls (w : World) (p : Program) (st : State F) :
  draws (frameCalls w p st) = 1%nat.
Proof. reflexivity. Qed.

Lemma draws_app (cs1 cs2 : list (Call F)) :
  draws (cs1 ++ cs2) = (draws cs1 + draws cs2)%nat.
Proof. unfold draws. rewrite filter_app, length_app. reflexivity. Qed.

(** A loop that is still running after the polls [pre] carries on with
    the polls that follow. *)
Lemma frameLoop_app (w : World) (p : Program) (pre post : list (list Event)) :
  forall st : State F,
    snd (frameLoop w p pre st) = Running ->
    frameLoop w p (pre ++ post) st =
    (fst (fst (frameLoop w p pre st))
     ++ fst (fst (frameLoop w p post (snd (fst (frameLoop w p pre st))))),
     snd (fst (frameLoop w p post (snd (fst (frameLoop w p pre st))))),
     snd (frameLoop w p post (snd (fst (frameLoop w p pre st))))).
Proof.
  induction pre as [|evs pre IH]; intros st Hrun.
  - destruct (shouldClose st) eqn:Ec.
    + rewrite (frameLoop_closed w p [] st Ec) in Hrun. discriminate Hrun.
    + cbn [app]. simpl (frameLoop w p [] st). rewrite Ec. cbn [fst snd app].
      destruct (frameLoop w p post st) as [[cs st'] ph]. reflexivity.
  - destruct (shouldClose st) eqn:Ec.
    + rewrite (frameLoop_closed w p _ st Ec) in Hrun. discriminate Hrun.
    + cbn [app]. rewrite !frameLoop_step by exact Ec.
      rewrite frameLoop_step in Hrun by exact Ec.
      destruct (frameLoop w p pre (fst (frame w p evs st))) as [[cs1 st1] ph1] eqn:E1.
      cbn [fst snd] in Hrun |- *.
      specialize (IH (fst (frame w p evs st))). rewrite E1 in IH.
      cbn [fst snd] in IH. rewrite (IH Hrun).
      rewrite <- app_assoc. reflexivity.
Qed.

End Loop.

(** ** The spin accumulator *)

Lemma exact_ticks_spin (n : nat) (st : State R) :
  rotate st = true ->
  spinCount (ticks n st) = (spinCount st + INR n * 0.0005)%R.
Proof.
  intros E. induction n as [|n IH].
  - simpl. lra.
  - rewrite ticks_S, tick_on by (rewrite ticks_rotate; exact E).
    cbn [spinCount]. rewrite IH, S_INR. simpl. lra.
Qed.

Lemma spin_close_upto_sound (k : nat) :
  forall (n : Z) (s : float),
    spin_close_upto k n s = true ->
    forall i : nat, (i <= k)%nat ->
      spin_close (n + Z.of_nat i)
        (Nat.iter i (fun x => f64_add x f64_step) s) = true.
Proof.
  induction k as [|k IH]; intros n s Hc i Hi; simpl in Hc;
    apply andb_prop in Hc; destruct Hc as [H0 Hrest].
  - assert (i = 0%nat) by lia. subst i. simpl. rewrite Z.add_0_r. exact H0.
  - destruct i as [|i].
    + simpl. rewrite Z.add_0_r. exact H0.
    + rewrite Nat.iter_succ_r.
      replace (n + Z.of_nat (S i))%Z with (n + 1 + Z.of_nat i)%Z by lia.
      apply IH; [exact Hrest | lia].
Qed.

Lemma binary64_first_ticks_checked :
  spin_close_upto (Z.to_nat 20000) 0 0%float = true.
Proof. vm_compute. reflexivity. Qed.

Lemma binary64_ticks_close (n : nat) :
  (Z.of_nat n <= 20000)%Z ->
  spin_close (Z.of_nat n) (spinCount (ticks n (@loopEntry float binary64))) = true.
Proof.
  intros Hn. rewrite ticks_on_spin by reflexivity.
  apply (spin_close_upto_sound _ 0%Z _ binary64_first_ticks_checked n). lia.
Qed.

(** Adding the step to 2^43 gives 2^43 back, however often it is done. *)
Lemma binary64_stalled (n : nat) :
  Nat.iter n (fun x : float => f64_add x f64_step) 0x1p43%float = 0x1p43%float.
Proof.
  induction n as [|n IH]; [reflexivity|].
  rewrite Nat.iter_succ, IH. reflexivity.
Qed.

(** Binary64 cannot follow the exact law for ever: at 2^43 the step is
    less than half the gap to the next double, and the sum rounds back. *)
Lemma binary64_spin_stalls (n : nat) (c : bool) (m : Mat4 float) :
  spinCount (ticks n (mkState c true 0x1p43%float m)) = 0x1p43%float.
Proof.
  rewrite ticks_on_spin by reflexivity. cbn [spinCount].
  induction n as [|n IH]; [reflexivity|].
  rewrite Nat.iter_succ, IH. reflexivity.
Qed.

(** C1, amended: with rotation off, any number of ticks leaves the
    accumulator (the whole state) as it was, in any arithmetic.  With
    rotation on, [n] ticks are [n] float64 additions of 0.0005 to the
    accumulator.  That sum is [initial + n * 0.0005] in real arithmetic; in
    binary64, the program's arithmetic, it is, from 0, within [1e-9] of
    [n * 0.0005] for every [n] up to 20000, and within [1e-12] of 1 after
    2000 ticks.  Polling never touches the accumulator, so a frame leaves
    it as its tick did. *)
Theorem spin_accumulator_law :
  (forall (F : Type) (A : Float64 F) (n : nat) (st : State F),
      rotate st = false ->
      ticks n st = st /\ spinCount (ticks n st) = spinCount st)
  /\ (forall (F : Type) (A : Float64 F) (n : nat) (st : State F),
      rotate st = true ->
      spinCount (ticks n st) = spin_after n (spinCount st))
  /\ (forall (n : nat) (st : State R),
      rotate st = true ->
      spinCount (ticks n st) = (spinCount st + INR n * 0.0005)%R)
  /\ (forall n : nat,
      (Z.of_nat n <= 20000)%Z ->
      is_finite (spinCount (ticks n (@loopEntry float binary64))) = true
      /\ (Qabs (B2Q (spinCount (ticks n (@loopEntry float binary64)))
                - inject_Z (Z.of_nat n) * 0.0005) <= 1e-9)%Q)
  /\ (Qabs (B2Q (spinCount (ticks 2000 (@loopEntry float binary64))) - 1)
      <= 1e-12)%Q
  /\ (forall (F : Type) (A : Float64 F) (w : World) (p : Program)
        (evs : list Event) (st : State F),
      spinCount (fst (frame w p evs st)) = spinCount (tick st)).
Proof.
  split; [|split; [|split; [|split; [|split]]]].
  - intros F A n st E. rewrite (ticks_off n st E). split; reflexivity.
  - intros F A n st E. unfold spin_after. apply ticks_on_spin. exact E.
  - exact exact_ticks_spin.
  - intros n Hn. pose proof (binary64_ticks_close n Hn) as Hc.
    unfold spin_close in Hc. apply andb_prop in Hc. destruct Hc as [Hf Hq].
    split; [exact Hf|]. apply Qle_bool_iff. exact Hq.
  - apply Qle_bool_iff. vm_compute. reflexivity.
  - intros F A w p evs st. unfold frame. simpl.
    apply (pollEvents_spin evs (tick st)).
Qed.

Lemma spin_accumulator_law_witness :
  ticks 7 (mkState false false 0.25%float (@Identity float))
  = mkState false false 0.25%float Identity
  /\ spinCount (ticks 2000 (mkState false true 0%R (@Identity R))) = 1%R.
Proof.
  destruct spin_accumulator_law as [Hoff [_ [Hon _]]]. split.
  - apply (Hoff float binary64 7%nat). reflexivity.
  - rewrite (Hon 2000%nat) by reflexivity. cbn [spinCount].
    replace (INR 2000) with 2000%R by (rewrite INR_IZR_INZ; reflexivity). lra.
Defined.

(** C1, as the specification has it, fails in the program's arithmetic.
    With rotation on: from accumulator 0, 376874 ticks leave the binary64
    accumulator further than [1e-9] from [376874 * 0.0005]; from
    accumulator 4096, 20000 ticks leave it further than [1e-9] from
    [4096 + 20000 * 0.0005]; and from accumulator 2^43, 2^60 ticks leave
    it at 2^43, where [initial + n * 0.0005] is more than 64 times that. *)
Lemma spin_law_fails_in_binary64 :
  ~ (Qabs (B2Q (spinCount (ticks (Z.to_nat 376874) (@loopEntry float binary64)))
           - inject_Z 376874 * 0.0005) <= 1e-9)%Q
  /\ ~ (Qabs (B2Q (spinCount
                     (ticks (Z.to_nat 20000)
                        (mkState false true 4096%float Identity)))
              - (4096 + inject_Z 20000 * 0.0005)) <= 1e-9)%Q
  /\ spinCount (ticks (2 ^ 60) (mkState false true 0x1p43%float Identity))
     = 0x1p43%float
  /\ (64 * B2Q 0x1p43%float
      <= B2Q 0x1p43%float + inject_Z (Z.of_nat (2 ^ 60)) * 0.0005)%Q.
Proof.
  split; [|split; [|split]].
  - intros Hle. apply Qle_bool_iff in Hle.
    assert (Hb : Qle_bool
                   (Qabs (B2Q (spinCount (ticks (Z.to_nat 376874)
                                            (@loopEntry float binary64)))
                          - inject_Z 376874 * 0.0005)) 1e-9 = false)
      by (vm_compute; reflexivity).
    rewrite Hb in Hle. discriminate Hle.
  - intros Hle. apply Qle_bool_iff in Hle.
    assert (Hb : Qle_bool
                   (Qabs (B2Q (spinCount
                                 (ticks (Z.to_nat 20000)
                                    (mkState false true 4096%float Identity)))
                          - (4096 + inject_Z 20000 * 0.0005))) 1e-9 = false)
      by (vm_compute; reflexivity).
    rewrite Hb in Hle. discriminate Hle.
  - rewrite ticks_on_spin by reflexivity. cbn [spinCount].
    apply binary64_stalled.
  - rewrite Nat2Z.inj_pow. apply Qle_bool_iff. vm_compute. reflexivity.
Qed.

(** ** The rotation angle *)

Section Angle.

Context {F : Type} `{Float64 F}.

(** The matrix an enabled tick installs is built from the accumulator as
    it stood before the tick. *)
Lemma tick_on_model (st : State F) :
  rotate st = true ->
  modelMat (tick st) =
  Rotation (f64_to_f32 (f64_mul (spinCount st) f64_pi)) (mkVec3 0 0 1)
  /\ spinCount (tick st) = f64_add (spinCount st) f64_step.
Proof. intros E. rewrite (tick_on st E). split; reflexivity. Qed.



End Angle.








(** ** Rotation switched off *)

Section Frozen.

Context {F : Type} `{Float64 F}.

Lemma frame_off (w : World) (p : Program) (evs : list Event) (st : State F) :
  rotate st = false ->
  frame w p evs st = (pollEvents evs st, frameCalls w p st).
Proof. intros E. unfold frame. rewrite (tick_off st E). reflexivity. Qed.

(** [n] idle frames with rotation off: the same calls [n] times over,
    and the state as before. *)
Lemma idle_frames_off (w : World) (p : Program) (n : nat) (st : State F) :
  rotate st = false ->
  shouldClose st = false ->
  frameLoop w p (repeat [] n) st =
  (List.concat (repeat (frameCalls w p st) n), st, Running).
Proof.
  intros Er Ec. induction n as [|n IH].
  - simpl. rewrite Ec. reflexivity.
  - cbn [repeat]. rewrite frameLoop_step by exact Ec.
    rewrite (frame_off w p [] st Er). cbn [fst snd].
    rewrite pollEvents_nil, IH. reflexivity.
Qed.

End Frozen.

(** C10: a frame with rotation off leaves the model matrix and the
    accumulator as they were and still pushes that matrix to the model
    uniform: the identity if no enabled frame came before (the matrix at
    loop entry), otherwise the rotation the last enabled frame computed;
    over any number of idle frames the same matrix is pushed again and
    again. *)
Theorem disabled_rotation_freezes_model :
  (forall (F : Type) (A : Float64 F) (w : World) (p : Program)
      (evs : list Event) (st : State F),
      rotate st = false ->
      modelMat (fst (frame w p evs st)) = modelMat st
      /\ spinCount (fst (frame w p evs st)) = spinCount st
      /\ snd (frame w p evs st) = frameCalls w p st
      /\ In (UniformMatrix4fv (uniform_location w "model") false (modelMat st))
           (snd (frame w p evs st)))
  /\ (forall (F : Type) (A : Float64 F), modelMat (@loopEntry F A) = Identity)
  /\ (forall (F : Type) (A : Float64 F) (w : World) (p : Program)
        (evs1 evs2 : list Event) (st : State F),
      rotate st = true ->
      rotate (fst (frame w p evs1 st)) = false ->
      In (UniformMatrix4fv (uniform_location w "model") false
            (Rotation (f64_to_f32 (f64_mul (spinCount st) f64_pi))
               (mkVec3 0 0 1)))
         (snd (frame w p evs2 (fst (frame w p evs1 st))))
      /\ modelMat (fst (frame w p evs2 (fst (frame w p evs1 st)))) =
         Rotation (f64_to_f32 (f64_mul (spinCount st) f64_pi)) (mkVec3 0 0 1))
  /\ (forall (F : Type) (A : Float64 F) (w : World) (p : Program) (n : nat)
        (st : State F),
      rotate st = false ->
      shouldClose st = false ->
      frameLoop w p (repeat [] n) st =
      (List.concat (repeat (frameCalls w p st) n), st, Running)).
Proof.
  split; [|split; [|split]].
  - intros F A w p evs st E. rewrite (frame_off w p evs st E). cbn [fst snd].
    destruct (pollEvents_spin evs st) as [Hs Hm].
    repeat split; auto. simpl. auto.
  - reflexivity.
  - intros F A w p evs1 evs2 st Eon Eoff.
    assert (Hm : modelMat (fst (frame w p evs1 st)) =
                 Rotation (f64_to_f32 (f64_mul (spinCount st) f64_pi))
                   (mkVec3 0 0 1)).
    { unfold frame. cbn [fst].
      rewrite (proj2 (pollEvents_spin evs1 (tick st))).
      apply (tick_on_model st Eon). }
    rewrite (frame_off w p evs2 _ Eoff). cbn [fst snd].
    rewrite (proj2 (pollEvents_spin evs2 _)), <- Hm.
    split; [simpl; auto | reflexivity].
  - intros F A w p n st. apply idle_frames_off.
Qed.

Lemma disabled_rotation_witness :
  modelMat (fst (frame (sample_world []) 8%nat [toggle_press]
                   (mkState false false 0.25%float (@Identity float))))
  = Identity.
Proof.
  apply (proj1 disabled_rotation_freezes_model float binary64
           (sample_world []) 8%nat [toggle_press]
           (mkState false false 0.25%float Identity)).
  reflexivity.
Defined.

(** ** Toggling the rotation *)

(** C7: a press of R flips [rotate], a second press flips it back (and
    the whole state with it).  The frame during whose poll the key
    arrives has already ticked on the old flag and makes the same calls
    as without the key; the next tick runs on the flipped flag. *)
Theorem toggle_rotation_twice :
  forall (F : Type) (A : Float64 F) (st : State F) (sc1 m1 sc2 m2 : Z)
    (w : World) (p : Program),
    rotate (keyCallback KeyR sc1 Press m1 st) = negb (rotate st)
    /\ keyCallback KeyR sc2 Press m2 (keyCallback KeyR sc1 Press m1 st) = st
    /\ rotate (keyCallback KeyR sc2 Press m2 (keyCallback KeyR sc1 Press m1 st))
       = rotate st
    /\ snd (frame w p [KeyEvent KeyR sc1 Press m1] st) = snd (frame w p [] st)
    /\ spinCount (fst (frame w p [KeyEvent KeyR sc1 Press m1] st))
       = spinCount (tick st)
    /\ rotate (fst (frame w p [KeyEvent KeyR sc1 Press m1] st))
       = negb (rotate st)
    /\ spinCount (tick (fst (frame w p [KeyEvent KeyR sc1 Press m1] st)))
       = (if negb (rotate st)
          then f64_add (spinCount (tick st)) f64_step
          else spinCount (tick st)).
Proof.
  intros F A st sc1 m1 sc2 m2 w p.
  assert (Hflag : rotate (fst (frame w p [KeyEvent KeyR sc1 Press m1] st))
                  = negb (rotate st)).
  { unfold frame, pollEvents. cbn. rewrite tick_rotate. reflexivity. }
  repeat split.
  - destruct st as [c r s m]. simpl. rewrite negb_involutive. reflexivity.
  - simpl. apply negb_involutive.
  - exact Hflag.
  - unfold tick at 1. rewrite Hflag.
    destruct (negb (rotate st)); reflexivity.
Qed.

(** ** Startup *)

Section Startup.

Context {F : Type} `{Float64 F}.

Lemma loadShader_run (w : World) (shaderType : GLenum) (source : string)
    (m : Machine F) :
  loadShader w shaderType source m =
  ((if (compile_status w shaderType source =? 0)%Z
    then Ok (S (names m), Some (compile_error_text source))
    else Ok (S (names m), None)),
   mkMachine (calls m ++ compile_steps shaderType (S (names m)) source)
     (defers m) (S (names m))).
Proof.
  unfold loadShader, compile_steps. run_block.
  destruct (compile_status w shaderType source =? 0)%Z; reflexivity.
Qed.

Lemma compileStage_ok (w : World) (shaderType : GLenum) (source : string)
    (m : Machine F) :
  compile_status w shaderType source <> 0%Z ->
  compileStage w shaderType source m =
  (Ok (S (names m)),
   mkMachine (calls m ++ compile_steps shaderType (S (names m)) source)
     (DeleteShader (S (names m)) :: defers m) (S (names m))).
Proof.
  intros Hs. unfold compileStage.
  cbv [bind Monad_M]. rewrite loadShader_run.
  apply Z.eqb_neq in Hs. rewrite Hs. reflexivity.
Qed.

Lemma loadTexture_ok (w : World) (filename : string) (texture_id : GLenum)
    (image : NRGBA) (m : Machine F) :
  loadImage w filename = inr image ->
  loadTexture w filename texture_id m =
  (Ok (S (names m)),
   mkMachine (calls m ++ texture_load_steps texture_id (S (names m)) image)
     (DeleteTexture (S (names m)) :: defers m) (S (names m))).
Proof.
  intros Hi. unfold loadTexture, loadTextureFromImage, texture_load_steps.
  rewrite Hi. run_block. reflexivity.
Qed.

Lemma uploadGeometry_run (m : Machine F) :
  uploadGeometry m =
  (Ok tt,
   mkMachine
     (calls m
      ++ geometry_steps (S (names m)) (S (S (names m))) (S (S (S (names m)))))
     (DeleteBuffer (S (S (S (names m)))) :: DeleteBuffer (S (S (names m)))
      :: DeleteVertexArray (S (names m)) :: defers m)
     (S (S (S (names m))))).
Proof. unfold uploadGeometry, geometry_steps. run_block. reflexivity. Qed.

Lemma linkProgram_run (vertexShader fragmentShader : Shader) (m : Machine F) :
  linkProgram vertexShader fragmentShader m =
  (Ok (S (names m)),
   mkMachine (calls m ++ link_steps (S (names m)) vertexShader fragmentShader)
     (DeleteProgram (S (names m)) :: defers m) (S (names m))).
Proof. unfold linkProgram, link_steps. run_block. reflexivity. Qed.

Lemma describeVertices_run (w : World) (p : Program) (m : Machine F) :
  describeVertices w p m =
  (Ok tt, mkMachine (calls m ++ layout_steps w p) (defers m) (names m)).
Proof. unfold describeVertices, layout_steps. run_block. reflexivity. Qed.

Lemma glInit_ok (w : World) (m : Machine F) :
  glfw_Init w = true -> glfw_CreateWindow w = None -> gl_Init w = 0%Z ->
  glInit w m =
  (Ok None, mkMachine (calls m ++ window_steps) (defers m) (names m)).
Proof.
  intros H1 H2 H3. unfold glInit, window_steps.
  rewrite H1, H2, H3, Z.eqb_refl. run_block. reflexivity.
Qed.

End Startup.

Section WholeProgram.

Context {F : Type} `{Float64 F}.

Lemma loadTextures_ok (w : World) (image1 image2 : NRGBA) (m : Machine F) :
  loadImage w "sloth_n_banana.jpg" = inr image1 ->
  loadImage w "sloth_n_kebab.jpg" = inr image2 ->
  loadTextures w m =
  (Ok (S (names m), S (S (names m))),
   mkMachine
     (calls m ++ texture_load_steps TEXTURE0 (S (names m)) image1
      ++ texture_load_steps TEXTURE1 (S (S (names m))) image2)
     (DeleteTexture (S (S (names m))) :: DeleteTexture (S (names m))
      :: defers m)
     (S (S (names m)))).
Proof.
  intros H1 H2. unfold loadTextures. cbv [bind Monad_M].
  rewrite (loadTexture_ok w _ TEXTURE0 image1 m H1).
  rewrite (loadTexture_ok w _ TEXTURE1 image2 _ H2).
  cbn [calls defers names ret]. rewrite <- app_assoc. reflexivity.
Qed.

(** A run in which nothing fails at startup: the startup calls, then the
    loop. *)
Lemma mainBody_startup (w : World) (image1 image2 : NRGBA) :
  startup_succeeds w image1 image2 ->
  mainBody w (mkMachine [] [] 0) =
  (Ok (snd (fst (frameLoop w 8%nat (events w) loopEntry)),
       snd (frameLoop w 8%nat (events w) loopEntry)),
   mkMachine
     (startup_steps w image1 image2
      ++ fst (fst (frameLoop w 8%nat (events w) loopEntry)))
     teardown_steps 8).
Proof.
  intros (Hg & Hw & Hi & H1 & H2 & Hv & Hf).
  unfold mainBody. cbv [bind Monad_M].
  rewrite (glInit_ok w _ Hg Hw Hi). cbv [check ret Monad_M defer].
  rewrite uploadGeometry_run. cbn [calls defers names].
  rewrite (loadTextures_ok w image1 image2 _ H1 H2). cbn [calls defers names].
  rewrite (compileStage_ok w VERTEX_SHADER _ _ Hv). cbn [calls defers names].
  rewrite (compileStage_ok w FRAGMENT_SHADER _ _ Hf). cbn [calls defers names].
  rewrite linkProgram_run. cbn [calls defers names].
  rewrite describeVertices_run. cbn [calls defers names].
  unfold bindSamplers. run_block.
  destruct (frameLoop w 8%nat (events w) loopEntry) as [[cs st] ph].
  cbn [fst snd]. unfold startup_steps, uniform_steps, teardown_steps.
  rewrite <- ?app_assoc. reflexivity.
Qed.

Lemma main_run (w : World) (image1 image2 : NRGBA) :
  startup_succeeds w image1 image2 ->
  main w =
  match snd (frameLoop w 8%nat (events w) loopEntry) with
  | Terminated =>
      mkRun Returned
        ((startup_steps w image1 image2
          ++ fst (fst (frameLoop w 8%nat (events w) loopEntry)))
         ++ teardown_steps)
        (Some (snd (fst (frameLoop w 8%nat (events w) loopEntry))))
  | _ =>
      mkRun StillRunning
        (startup_steps w image1 image2
         ++ fst (fst (frameLoop w 8%nat (events w) loopEntry)))
        (Some (snd (fst (frameLoop w 8%nat (events w) loopEntry))))
  end.
Proof.
  intros Hs. unfold main. rewrite (mainBody_startup w image1 image2 Hs).
  destruct (snd (frameLoop w 8%nat (events w) loopEntry)); reflexivity.
Qed.

End WholeProgram.

(** ** Texture loading *)

(** C8: loading a texture generates a texture object, activates the
    given unit, binds the texture to the 2-D target, uploads level 0 of
    the decoded image with RGBA internal and source format and
    unsigned-byte components, and sets both filters to linear, in this
    order (the two filter calls are made by [main] right after
    [loadTextureFromImage] returns); [main] does so for unit 0 and then,
    with a texture object of its own, for unit 1. *)
Theorem texture_load_sequence :
  forall (F : Type) (A : Float64 F) (w : World) (image1 image2 : NRGBA)
    (m : Machine F),
    startup_succeeds w image1 image2 ->
    loadTexture w "sloth_n_banana.jpg" TEXTURE0 m =
    (Ok (S (names m)),
     mkMachine (calls m ++ texture_load_steps TEXTURE0 (S (names m)) image1)
       (DeleteTexture (S (names m)) :: defers m) (S (names m)))
    /\ loadTextures w m =
       (Ok (S (names m), S (S (names m))),
        mkMachine
          (calls m ++ texture_load_steps TEXTURE0 (S (names m)) image1
           ++ texture_load_steps TEXTURE1 (S (S (names m))) image2)
          (DeleteTexture (S (S (names m))) :: DeleteTexture (S (names m))
           :: defers m)
          (S (S (names m))))
    /\ exists before after : list (Call F),
         trace (main w) =
         before ++ texture_load_steps TEXTURE0 4%nat image1
         ++ texture_load_steps TEXTURE1 5%nat image2 ++ after.
Proof.
  intros F A w image1 image2 m Hs.
  pose proof Hs as (_ & _ & _ & H1 & H2 & _ & _).
  split; [apply loadTexture_ok, H1|].
  split; [apply loadTextures_ok; assumption|].
  rewrite (main_run w image1 image2 Hs). unfold startup_steps.
  destruct (frameLoop w 8%nat (events w) loopEntry) as [[cs st] ph].
  cbn [fst snd].
  exists (window_steps ++ geometry_steps 1%nat 2%nat 3%nat).
  destruct ph; cbn [trace]; eexists; rewrite <- ?app_assoc; reflexivity.
Qed.

Lemma sample_world_starts (polls : list (list Event)) :
  startup_succeeds (sample_world polls) sample_image sample_image.
Proof. repeat split; discriminate. Qed.

Lemma texture_load_witness :
  loadTexture (sample_world []) "sloth_n_banana.jpg" TEXTURE0
    (@mkMachine float [] [] 3)
  = (Ok 4%nat,
     mkMachine (texture_load_steps TEXTURE0 4%nat sample_image)
       [DeleteTexture 4%nat] 4%nat).
Proof.
  apply (proj1 (texture_load_sequence float binary64 (sample_world [])
                  sample_image sample_image (mkMachine [] [] 3)
                  (sample_world_starts []))).
Defined.

(** ** Geometry *)

(** C5: the vertex buffer holds four vertices of two position floats and
    two texture-coordinate floats each, read with a stride of 16 bytes;
    the positions are the corners of the square of side 1 centred at the
    origin; the index buffer holds 0, 1, 2, 3; every frame draws 4
    indices as a triangle strip; and the uploaded sizes, 64 and 8 bytes,
    are vertex count times stride and index count times index width. *)
Theorem quad_geometry :
  map position (seq 0 4) = [[-0.5; -0.5]; [0.5; -0.5]; [-0.5; 0.5]; [0.5; 0.5]]%Q
  /\ map textureCoord (seq 0 4) = [[0; 1]; [1; 1]; [0; 0]; [1; 0]]%Q
  /\ Go.len vertices = (4 * (2 + 2))%Z
  /\ vertex_count vertices (4 * 4) = 4%Z
  /\ (highest position_xs - lowest position_xs == 1)%Q
  /\ (highest position_ys - lowest position_ys == 1)%Q
  /\ (highest position_xs + lowest position_xs == 0)%Q
  /\ (highest position_ys + lowest position_ys == 0)%Q
  /\ elements = [0; 1; 2; 3]%Z
  /\ (Go.len vertices * 4 = vertex_count vertices (4 * 4) * (4 * 4))%Z
  /\ (Go.len vertices * 4 = 64)%Z
  /\ (Go.len elements * 2 = 4 * 2)%Z
  /\ (forall (F : Type) (m : Machine F),
        uploadGeometry m =
        (Ok tt,
         mkMachine
           (calls m
            ++ [ GenVertexArray (S (names m));
                 BindVertexArray (S (names m));
                 GenBuffer (S (S (names m)));
                 BindBuffer ARRAY_BUFFER (S (S (names m)));
                 BufferData ARRAY_BUFFER 64 (Floats vertices) STATIC_DRAW;
                 GenBuffer (S (S (S (names m))));
                 BindBuffer ELEMENT_ARRAY_BUFFER (S (S (S (names m))));
                 BufferData ELEMENT_ARRAY_BUFFER 8 (Ushorts elements)
                   STATIC_DRAW ])
           (DeleteBuffer (S (S (S (names m)))) :: DeleteBuffer (S (S (names m)))
            :: DeleteVertexArray (S (names m)) :: defers m)
           (S (S (S (names m))))))
  /\ (forall (F : Type) (w : World) (p : Program) (m : Machine F),
        describeVertices w p m =
        (Ok tt,
         mkMachine
           (calls m
            ++ [ GetAttribLocation p "position";
                 AttribPointer (attrib_location w "position") 2 FLOAT false 16 0;
                 EnableArray (attrib_location w "position");
                 GetAttribLocation p "textureCoord";
                 AttribPointer (attrib_location w "textureCoord") 2 FLOAT
                   false 16 8;
                 EnableArray (attrib_location w "textureCoord") ])
           (defers m) (names m)))
  /\ (forall (F : Type) (A : Float64 F) (w : World) (p : Program)
        (evs : list Event) (st : State F),
        In (DrawElements TRIANGLE_STRIP 4 UNSIGNED_SHORT 0)
           (snd (frame w p evs st))
        /\ draws (snd (frame w p evs st)) = 1%nat).
Proof.
  repeat match goal with |- _ /\ _ => split end;
    try reflexivity.
  - intros F m. apply uploadGeometry_run.
  - intros F w p m. apply describeVertices_run.
  - simpl. auto 10.
Qed.

(** ** Shader compilation *)

Lemma prefix_append (s t : string) : prefix s (s ++ t)%string = true.
Proof.
  induction s as [|a s IH]; simpl; [destruct t; reflexivity|].
  destruct (ascii_dec a a) as [_|Hneq]; [exact IH | contradiction].
Qed.

Lemma containsb_prefix (needle hay : string) :
  prefix needle hay = true -> containsb needle hay = true.
Proof. intros Hp. destruct hay; cbn [containsb]; rewrite Hp; reflexivity. Qed.

Lemma containsb_append (needle before after : string) :
  containsb needle (before ++ needle ++ after)%string = true.
Proof.
  induction before as [|a before IH].
  - cbn [append]. apply containsb_prefix, prefix_append.
  - cbn [append containsb]. rewrite IH. destruct (prefix needle _); reflexivity.
Qed.

(** C3 does not hold as stated: the text returned for a rejected vertex
    shader names no stage, and is the text returned for a fragment shader
    with the same source. *)
Lemma compile_error_omits_stage :
  fst (@loadShader float rejecting_world VERTEX_SHADER "void main() {}"
         (mkMachine [] [] 0))
  = Ok (1%nat, Some "Shader (void main() {}) did not compile."%string)
  /\ mentions_stage VERTEX_SHADER "Shader (void main() {}) did not compile."
     = false
  /\ fst (@loadShader float rejecting_world FRAGMENT_SHADER "void main() {}"
            (mkMachine [] [] 0))
     = Ok (1%nat, Some "Shader (void main() {}) did not compile."%string)
  /\ mentions_stage FRAGMENT_SHADER "Shader (void main() {}) did not compile."
     = false.
Proof. repeat split. Qed.

(** C3, amended: when the compile status is 0 [loadShader] returns the
    shader together with an error whose text is "Shader (", the source,
    ") did not compile.": it contains the offending source and does not
    depend on the stage; when the status is not 0 it returns the shader
    and no error.  Either way the calls made are create, source, compile
    and the status query. *)
Theorem compile_error_names_source_only :
  forall (F : Type) (w : World) (shaderType : GLenum) (source : string)
    (m : Machine F),
    (compile_status w shaderType source = 0%Z ->
     fst (loadShader w shaderType source m)
     = Ok (S (names m), Some (compile_error_text source)))
    /\ (compile_status w shaderType source <> 0%Z ->
        fst (loadShader w shaderType source m) = Ok (S (names m), None))
    /\ compile_error_text source
       = ("Shader (" ++ source ++ ") did not compile.")%string
    /\ containsb source (compile_error_text source) = true
    /\ calls (snd (loadShader w shaderType source m))
       = calls m ++ compile_steps shaderType (S (names m)) source.
Proof.
  intros F w shaderType source m. rewrite loadShader_run. cbn [fst snd calls].
  repeat split.
  - intros E. rewrite E. reflexivity.
  - intros E. apply Z.eqb_neq in E. rewrite E. reflexivity.
  - apply (containsb_append source "Shader (" ") did not compile.").
Qed.

Lemma compile_error_witness :
  fst (@loadShader float rejecting_world VERTEX_SHADER vertex_shader
         (mkMachine [] [] 5))
  = Ok (6%nat, Some (compile_error_text vertex_shader)).
Proof.
  apply (compile_error_names_source_only float rejecting_world VERTEX_SHADER
           vertex_shader (mkMachine [] [] 5)).
  reflexivity.
Defined.

(** ** Linking *)

(** C2 does not hold as stated: with a link status of false the program
    is used all the same, three frames are drawn, and [main] returns
    without an error. *)
Lemma failed_link_is_not_reported :
  link_status unlinked_world = false
  /\ outcome (@main float binary64 unlinked_world) = Returned
  /\ In (UseProgram 8%nat) (trace (@main float binary64 unlinked_world))
  /\ draws (trace (@main float binary64 unlinked_world)) = 3%nat.
Proof.
  split; [reflexivity|]. split; [vm_compute; reflexivity|].
  split; [|vm_compute; reflexivity].
  rewrite (main_run unlinked_world sample_image sample_image)
    by (repeat split; discriminate).
  vm_compute. auto 60.
Qed.

Section LinkStatus.

Context {F : Type} `{Float64 F}.

Lemma frameLoop_link_status (b : bool) (w : World) (p : Program)
    (polls : list (list Event)) (st : State F) :
  frameLoop (with_link_status b w) p polls st = frameLoop w p polls st.
Proof.
  revert st. induction polls as [|evs rest IH]; intros st; [reflexivity|].
  cbn [frameLoop]. destruct (shouldClose st); [reflexivity|].
  change (frame (with_link_status b w) p evs st) with (frame w p evs st).
  rewrite IH. reflexivity.
Qed.

Lemma bind_ext {A B : Type} (c : M F A) (k1 k2 : A -> M F B) (m : Machine F) :
  (forall (a : A) (m' : Machine F), k1 a m' = k2 a m') ->
  bind c k1 m = bind c k2 m.
Proof.
  intros Hk. cbv [bind Monad_M]. destruct (c m) as [[a|e] m']; [apply Hk|].
  reflexivity.
Qed.

(** No part of [main] reads the link status. *)
Lemma mainBody_link_status (b : bool) (w : World) (m : Machine F) :
  mainBody (with_link_status b w) m = mainBody w m.
Proof.
  unfold mainBody.
  change (glInit (with_link_status b w)) with (@glInit F w).
  change (loadTextures (with_link_status b w)) with (@loadTextures F w).
  change (compileStage (with_link_status b w)) with (@compileStage F w).
  change (describeVertices (with_link_status b w))
    with (@describeVertices F w).
  change (bindSamplers (with_link_status b w)) with (@bindSamplers F w).
  change (uniform_location (with_link_status b w)) with (uniform_location w).
  change (events (with_link_status b w)) with (events w).
  repeat (apply bind_ext; intros).
  rewrite frameLoop_link_status. reflexivity.
Qed.

Lemma main_link_status (b : bool) (w : World) :
  main (with_link_status b w) = main w.
Proof. unfold main. rewrite mainBody_link_status. reflexivity. Qed.

End LinkStatus.

(** C2, amended: the link step creates a program, attaches the vertex
    and the fragment unit, binds "outColor" to colour 0, links and at
    once uses the program.  The link status is never read: no run
    depends on it, and when startup otherwise succeeds [main] does not
    panic and uses the program whatever the status. *)
Theorem link_status_is_never_inspected :
  forall (F : Type) (A : Float64 F) (w : World) (image1 image2 : NRGBA)
    (vertexShader fragmentShader : Shader) (m : Machine F),
    startup_succeeds w image1 image2 ->
    linkProgram vertexShader fragmentShader m =
    (Ok (S (names m)),
     mkMachine
       (calls m
        ++ [ CreateProgram (S (names m));
             AttachShader (S (names m)) vertexShader;
             AttachShader (S (names m)) fragmentShader;
             BindFragDataLocation (S (names m)) 0 "outColor";
             LinkProgram (S (names m));
             UseProgram (S (names m)) ])
       (DeleteProgram (S (names m)) :: defers m) (S (names m)))
    /\ (forall b : bool, main (with_link_status b w) = main w)
    /\ (forall e : Go.error, outcome (main w) <> Panicked e)
    /\ exists before after : list (Call F),
         trace (main w) =
         before ++ [LinkProgram 8%nat; UseProgram 8%nat] ++ after.
Proof.
  intros F A w image1 image2 vertexShader fragmentShader m Hs.
  split; [apply linkProgram_run|].
  split; [intros b; apply main_link_status|].
  rewrite (main_run w image1 image2 Hs).
  destruct (frameLoop w 8%nat (events w) loopEntry) as [[cs st] ph].
  cbn [fst snd]. split.
  - intros e. destruct ph; discriminate.
  - exists (window_steps ++ geometry_steps 1%nat 2%nat 3%nat
            ++ texture_load_steps TEXTURE0 4%nat image1
            ++ texture_load_steps TEXTURE1 5%nat image2
            ++ compile_steps VERTEX_SHADER 6%nat vertex_shader
            ++ compile_steps FRAGMENT_SHADER 7%nat fragment_shader
            ++ firstn 4 (link_steps 8%nat 6%nat 7%nat)).
    unfold startup_steps.
    destruct ph; cbn [trace]; eexists; rewrite <- ?app_assoc;
      cbn [link_steps firstn app]; rewrite <- ?app_assoc; reflexivity.
Qed.

Lemma link_status_witness :
  @main float binary64 (with_link_status true unlinked_world)
  = main unlinked_world.
Proof.
  apply (link_status_is_never_inspected float binary64 unlinked_world
           sample_image sample_image 6%nat 7%nat (mkMachine [] [] 7)).
  repeat split; discriminate.
Defined.

(** ** The projection *)

(** C4: the projection matrix is built once, before the loop, with field
    of view 45, near plane 1 and far plane 10, from constants only, and no
    frame uploads it again.  Its aspect argument is written [640/480],
    which Go evaluates as a quotient of integer constants: it is 1, not
    the window's ratio 4/3. *)
Theorem projection_aspect_is_one :
  (forall F : Type, @projectionMat F = Perspective 45 1 1 10)
  /\ Go.const_quo 640 480 = 1%Z
  /\ ~ (inject_Z (Go.const_quo 640 480) == 640 # 480)%Q
  /\ (forall (F : Type) (w : World) (image1 image2 : NRGBA),
        In (UniformMatrix4fv (uniform_location w "projection") false
              (@Perspective F 45 1 1 10))
           (startup_steps w image1 image2))
  /\ (forall (F : Type) (w : World) (p : Program) (st : State F),
        ~ In (GetUniformLocation p "projection") (frameCalls w p st)).
Proof.
  split; [reflexivity|]. split; [reflexivity|]. split; [discriminate|].
  split.
  - intros F w image1 image2. unfold startup_steps.
    rewrite !in_app_iff. do 8 right. simpl. auto 10.
  - intros F w p st Hin. simpl in Hin.
    repeat (destruct Hin as [Hin|Hin]; [discriminate Hin|]). exact Hin.
Qed.

(** ** Leaving the loop *)

Lemma draws_startup {F : Type} (w : World) (image1 image2 : NRGBA) :
  draws (@startup_steps F w image1 image2) = 0%nat.
Proof. reflexivity. Qed.

(** C6: when a press of Escape or Q is among the events of an iteration's
    poll, the loop, [Running] before, is in [ClosingRequested] after that
    same iteration and ends at the next test of the flag, whatever input
    follows: from there on the run consists of that iteration's calls
    alone, whose one draw call precedes the poll.  In [main] the deferred
    releases follow at once and [main] returns: no draw call is made
    after the one of the iteration that polled the key. *)
Theorem quit_key_ends_loop :
  forall (F : Type) (A : Float64 F) (w : World) (p : Program)
    (evs : list Event) (rest : list (list Event)) (st : State F)
    (key : Key) (scancode mods : Z),
    shouldClose st = false ->
    key = KeyEscape \/ key = KeyQ ->
    In (KeyEvent key scancode Press mods) evs ->
    phase st = Running
    /\ phase (fst (frame w p evs st)) = ClosingRequested
    /\ frameLoop w p (evs :: rest) st =
       (snd (frame w p evs st), fst (frame w p evs st), Terminated)
    /\ frameLoop w p rest (fst (frame w p evs st)) =
       ([], fst (frame w p evs st), Terminated)
    /\ (exists before : list (Call F),
         snd (frame w p evs st) =
         before ++ [DrawElements TRIANGLE_STRIP 4 UNSIGNED_SHORT 0;
                    SwapBuffers; PollEvents]
         /\ draws before = 0%nat)
    /\ draws (fst (fst (frameLoop w p (evs :: rest) st))) = 1%nat
    /\ (forall (image1 image2 : NRGBA) (pre : list (list Event))
          (played : list (Call F)),
        startup_succeeds w image1 image2 ->
        events w = pre ++ evs :: rest ->
        frameLoop w 8%nat pre loopEntry = (played, st, Running) ->
        outcome (main w) = Returned
        /\ trace (main w) =
           startup_steps w image1 image2 ++ played
           ++ snd (frame w 8%nat evs st) ++ teardown_steps
        /\ draws (trace (main w)) = S (draws played)
        /\ draws (@teardown_steps F) = 0%nat).
Proof.
  intros F A w p evs rest st key scancode mods Ec Hk Hin.
  assert (Hclosed : forall q, shouldClose (fst (frame w q evs st)) = true).
  { intros q. unfold frame. cbn [fst].
    apply (pollEvents_quit evs _ key scancode mods Hk Hin). }
  assert (Hrest : forall q, frameLoop w q rest (fst (frame w q evs st)) =
                            ([], fst (frame w q evs st), Terminated))
    by (intros q; apply frameLoop_closed, Hclosed).
  assert (Hloop : forall q, frameLoop w q (evs :: rest) st =
                  (snd (frame w q evs st), fst (frame w q evs st), Terminated)).
  { intros q. rewrite frameLoop_step by exact Ec.
    rewrite Hrest, app_nil_r. reflexivity. }
  split; [unfold phase; rewrite Ec; reflexivity|].
  split; [unfold phase; rewrite Hclosed; reflexivity|].
  split; [apply Hloop|]. split; [apply Hrest|]. split.
  { exists (firstn 6 (frameCalls w p (tick st))). split; reflexivity. }
  split; [rewrite Hloop; reflexivity|].
  intros image1 image2 pre played Hs Hev Hpre.
  assert (Hall : frameLoop w 8%nat (events w) loopEntry =
                 (played ++ snd (frame w 8%nat evs st),
                  fst (frame w 8%nat evs st), Terminated)).
  { rewrite Hev, frameLoop_app by (rewrite Hpre; reflexivity).
    rewrite Hpre. cbn [fst snd]. rewrite Hloop. reflexivity. }
  rewrite (main_run w image1 image2 Hs), Hall. cbn [fst snd outcome trace].
  split; [reflexivity|]. split; [rewrite <- !app_assoc; reflexivity|].
  split; [|reflexivity].
  rewrite !draws_app, draws_startup. cbn [Nat.add].
  unfold frame. cbn [snd]. rewrite draws_frameCalls.
  change (draws (@teardown_steps F)) with 0%nat. lia.
Qed.

Lemma quit_key_witness :
  outcome (@main float binary64 (sample_world three_frames)) = Returned
  /\ draws (trace (@main float binary64 (sample_world three_frames))) = 3%nat.
Proof.
  destruct (quit_key_ends_loop float binary64 (sample_world three_frames)
              8%nat [quit_press] []
              (snd (fst (frameLoop (sample_world three_frames) 8%nat
                           [[]; []] loopEntry)))
              KeyEscape 9%Z 0%Z)
    as (_ & _ & _ & _ & _ & _ & Hmain).
  - reflexivity.
  - left. reflexivity.
  - left. reflexivity.
  - destruct (Hmain sample_image sample_image [[]; []]
                (fst (fst (frameLoop (sample_world three_frames) 8%nat
                             [[]; []] loopEntry))))
      as (Ho & _ & Hd & _).
    + apply sample_world_starts.
    + reflexivity.
    + reflexivity.
    + split; [exact Ho|]. rewrite Hd. reflexivity.
Defined.

(** ** What a poll does *)

Lemma deliver_effect {F : Type} (st : State F) (ev : Event) :
  deliver st ev =
  mkState (shouldClose st || is_quit ev) (xorb (rotate st) (is_toggle ev))
    (spinCount st) (modelMat st).
Proof.
  destruct st as [c r s m].
  destruct ev as [key sc act mods|]; [destruct act; destruct key|]; simpl;
    rewrite ?orb_false_r, ?orb_true_r, ?xorb_false_r, ?xorb_true_r;
    reflexivity.
Qed.

Lemma toggles_cons (ev : Event) (evs : list Event) :
  Nat.odd (toggles (ev :: evs)) = xorb (is_toggle ev) (Nat.odd (toggles evs)).
Proof.
  unfold toggles. cbn [filter]. destruct (is_toggle ev); cbn [List.length].
  - rewrite Nat.odd_succ, <- Nat.negb_odd. reflexivity.
  - reflexivity.
Qed.

Lemma pollEvents_state {F : Type} (evs : list Event) :
  forall st : State F,
    pollEvents evs st =
    mkState (shouldClose st || quits evs)
      (xorb (rotate st) (Nat.odd (toggles evs)))
      (spinCount st) (modelMat st).
Proof.
  induction evs as [|ev evs IH]; intros st.
  - destruct st as [c r s m]. cbn.
    rewrite orb_false_r, xorb_false_r. reflexivity.
  - change (pollEvents (ev :: evs) st) with (pollEvents evs (deliver st ev)).
    rewrite IH, deliver_effect, toggles_cons. cbn [shouldClose rotate spinCount modelMat].
    unfold quits. cbn [existsb].
    rewrite orb_assoc, xorb_assoc. reflexivity.
Qed.

(** A poll changes two flags and nothing else: the close flag is up
    afterwards exactly if it was up before or one of the events is a press
    of Escape or Q or a close request, and [rotate] is flipped exactly if
    the presses of R among the events are odd in number.  Releases,
    repeats and other keys count for nothing. *)
Theorem poll_raises_close_and_flips_rotate :
  forall (F : Type) (evs : list Event) (st : State F),
    shouldClose (pollEvents evs st) = (shouldClose st || quits evs)
    /\ rotate (pollEvents evs st) = xorb (rotate st) (Nat.odd (toggles evs))
    /\ spinCount (pollEvents evs st) = spinCount st
    /\ modelMat (pollEvents evs st) = modelMat st
    /\ (forall (key : Key) (sc mods : Z),
          is_quit (KeyEvent key sc Release mods) = false
          /\ is_quit (KeyEvent key sc Repeat mods) = false
          /\ is_toggle (KeyEvent key sc Release mods) = false
          /\ is_toggle (KeyEvent key sc Repeat mods) = false)
    /\ (forall (code sc mods : Z) (action : Action),
          is_quit (KeyEvent (KeyOther code) sc action mods) = false
          /\ is_toggle (KeyEvent (KeyOther code) sc action mods) = false).
Proof.
  intros F evs st. rewrite pollEvents_state. cbn.
  repeat split; try (destruct key; reflexivity); destruct action; reflexivity.
Qed.

(** ** How long the loop runs *)

Section Played.

Context {F : Type} `{Float64 F}.

Lemma frame_state (w : World) (p : Program) (evs : list Event) (st : State F) :
  fst (frame w p evs st) =
  mkState (shouldClose st || quits evs)
    (xorb (rotate st) (Nat.odd (toggles evs)))
    (spinCount (tick st)) (modelMat (tick st)).
Proof.
  unfold frame. cbn [fst]. rewrite pollEvents_state.
  rewrite tick_shouldClose, tick_rotate. reflexivity.
Qed.

Lemma frameLoop_played (w : World) (p : Program) (polls : list (list Event)) :
  forall st : State F,
    shouldClose st = false ->
    draws (fst (fst (frameLoop w p polls st))) = frames_played polls
    /\ List.length (fst (fst (frameLoop w p polls st)))
       = (9 * frames_played polls)%nat
    /\ snd (frameLoop w p polls st)
       = (if quit_seen polls then Terminated else Running)
    /\ shouldClose (snd (fst (frameLoop w p polls st))) = quit_seen polls.
Proof.
  induction polls as [|evs rest IH]; intros st Ec.
  - simpl. rewrite Ec. cbn. auto.
  - rewrite frameLoop_step by exact Ec.
    assert (Hc : shouldClose (fst (frame w p evs st)) = quits evs)
      by (rewrite frame_state; cbn; rewrite Ec; reflexivity).
    cbn [frames_played quit_seen existsb].
    destruct (quits evs) eqn:Eq.
    + rewrite (frameLoop_closed w p rest _ Hc). cbn [fst snd].
      rewrite app_nil_r. unfold frame. cbn [snd].
      repeat split; try reflexivity. exact Hc.
    + destruct (IH _ Hc) as (Hd & Hl & Hp & Hs).
      destruct (frameLoop w p rest (fst (frame w p evs st))) as [[cs st'] ph].
      cbn [fst snd] in *. rewrite draws_app, length_app, Hd, Hl.
      unfold frame. cbn [snd]. rewrite draws_frameCalls.
      repeat split; auto. cbn [frameCalls List.length]. lia.
Qed.

Lemma spin_after_succ_r (k : nat) (s : F) :
  spin_after (S k) s = spin_after k (f64_add s f64_step).
Proof. unfold spin_after. rewrite Nat.iter_succ_r. reflexivity. Qed.

Lemma frameLoop_enabled (w : World) (p : Program) (polls : list (list Event)) :
  forall st : State F,
    shouldClose st = false ->
    spinCount (snd (fst (frameLoop w p polls st)))
    = spin_after (enabled_frames (rotate st) polls) (spinCount st)
    /\ modelMat (snd (fst (frameLoop w p polls st)))
       = match enabled_frames (rotate st) polls with
         | O => modelMat st
         | S k =>
             Rotation
               (f64_to_f32 (f64_mul (spin_after k (spinCount st)) f64_pi))
               (mkVec3 0 0 1)
         end.
Proof.
  induction polls as [|evs rest IH]; intros st Ec.
  - simpl. rewrite Ec. cbn. auto.
  - rewrite frameLoop_step by exact Ec.
    pose proof (frame_state w p evs st) as Hst. rewrite Ec in Hst.
    cbn [orb] in Hst. cbn [enabled_frames].
    destruct (quits evs) eqn:Eq.
    + rewrite (frameLoop_closed w p rest (fst (frame w p evs st)))
        by (rewrite Hst; reflexivity).
      cbn [fst snd]. rewrite Hst. cbn [spinCount modelMat].
      destruct (rotate st) eqn:Er.
      * rewrite (tick_on st Er). cbn. auto.
      * rewrite (tick_off st Er). cbn. auto.
    + assert (Hc : shouldClose (fst (frame w p evs st)) = false)
        by (rewrite Hst; reflexivity).
      destruct (IH _ Hc) as [Hs Hm].
      destruct (frameLoop w p rest (fst (frame w p evs st))) as [[cs st'] ph].
      cbn [fst snd] in *. rewrite Hs, Hm, Hst. cbn [rotate spinCount modelMat].
      destruct (rotate st) eqn:Er.
      * rewrite (tick_on st Er). cbn [spinCount modelMat Nat.add].
        rewrite spin_after_succ_r. split; [reflexivity|].
        destruct (enabled_frames (xorb true (Nat.odd (toggles evs))) rest)
          as [|k]; [reflexivity|].
        rewrite spin_after_succ_r. reflexivity.
      * rewrite (tick_off st Er). cbn [Nat.add]. auto.
Qed.

End Played.

Lemma exact_spin_after (k : nat) (s : R) :
  spin_after k s = (s + INR k * 0.0005)%R.
Proof.
  unfold spin_after. induction k as [|k IH].
  - simpl. lra.
  - rewrite Nat.iter_succ, IH, S_INR. simpl. lra.
Qed.

(** ** Every run of [main] *)

Section Failures.

Context {F : Type} `{Float64 F}.

Lemma glInit_no_glfw (w : World) (m : Machine F) :
  glfw_Init w = false ->
  glInit w m =
  (Ok (Some (Go.errors_New "Can't initialise GLFW!")),
   mkMachine (calls m ++ [SetErrorCallback; glfwInit]) (defers m) (names m)).
Proof. intros H1. unfold glInit. rewrite H1. run_block. reflexivity. Qed.

Lemma glInit_no_window (w : World) (e : Go.error) (m : Machine F) :
  glfw_Init w = true -> glfw_CreateWindow w = Some e ->
  glInit w m =
  (Ok (Some e),
   mkMachine (calls m ++ firstn 7 window_steps) (defers m) (names m)).
Proof.
  intros H1 H2. unfold glInit, window_steps. rewrite H1, H2. run_block.
  reflexivity.
Qed.

Lemma glInit_no_opengl (w : World) (m : Machine F) :
  glfw_Init w = true -> glfw_CreateWindow w = None -> gl_Init w <> 0%Z ->
  glInit w m =
  (Ok (Some (Go.errors_New "Can't initialise OpenGL.")),
   mkMachine (calls m ++ window_steps) (defers m) (names m)).
Proof.
  intros H1 H2 H3. apply Z.eqb_neq in H3. unfold glInit, window_steps.
  rewrite H1, H2, H3. run_block. reflexivity.
Qed.

Lemma loadTexture_fail (w : World) (filename : string) (texture_id : GLenum)
    (e : Go.error) (m : Machine F) :
  loadImage w filename = inl e ->
  loadTexture w filename texture_id m =
  (Panicking e,
   mkMachine (calls m ++ [GenTexture (S (names m))]) (defers m) (S (names m))).
Proof.
  intros Hi. unfold loadTexture, loadTextureFromImage. rewrite Hi.
  run_block. reflexivity.
Qed.

Lemma compileStage_fail (w : World) (shaderType : GLenum) (source : string)
    (m : Machine F) :
  compile_status w shaderType source = 0%Z ->
  compileStage w shaderType source m =
  (Panicking (compile_error_text source),
   mkMachine (calls m ++ compile_steps shaderType (S (names m)) source)
     (defers m) (S (names m))).
Proof.
  intros Hs. unfold compileStage. cbv [bind Monad_M].
  rewrite loadShader_run, Hs. reflexivity.
Qed.

(** [main] panics on whatever [glInit] reports, before anything is
    deferred. *)
Lemma main_glInit_fails (w : World) (e : Go.error) (cs : list (Call F)) :
  glInit w (mkMachine [] [] 0) = (Ok (Some e), mkMachine cs [] 0%nat) ->
  main w = mkRun (Panicked e) cs None.
Proof.
  intros Hg. unfold main, mainBody. cbv [bind Monad_M]. rewrite Hg.
  cbv [check panic]. cbn [calls defers]. rewrite app_nil_r. reflexivity.
Qed.

Lemma startup_started (w : World) (image1 image2 : NRGBA) :
  startup w = Started image1 image2 <-> startup_succeeds w image1 image2.
Proof.
  unfold startup, startup_succeeds. split.
  - destruct (glfw_Init w); [|discriminate]. cbn [negb].
    destruct (glfw_CreateWindow w); [discriminate|].
    destruct (gl_Init w =? 0)%Z eqn:Eg; [|discriminate]. cbn [negb].
    destruct (loadImage w "sloth_n_banana.jpg") as [e|i1]; [discriminate|].
    destruct (loadImage w "sloth_n_kebab.jpg") as [e|i2]; [discriminate|].
    destruct (compile_status w VERTEX_SHADER vertex_shader =? 0)%Z eqn:Ev;
      [discriminate|].
    destruct (compile_status w FRAGMENT_SHADER fragment_shader =? 0)%Z eqn:Ef;
      [discriminate|].
    intros E. injection E as -> ->.
    apply Z.eqb_eq in Eg. apply Z.eqb_neq in Ev. apply Z.eqb_neq in Ef.
    repeat split; auto.
  - intros (Hg & Hw & Hi & H1 & H2 & Hv & Hf).
    apply Z.eqb_neq in Hv. apply Z.eqb_neq in Hf.
    rewrite Hg, Hw, Hi, H1, H2, Hv, Hf. reflexivity.
Qed.

(** [main] up to the texture loads, when the window system and the
    driver came up. *)
Lemma mainBody_to_textures (w : World) :
  glfw_Init w = true -> glfw_CreateWindow w = None -> gl_Init w = 0%Z ->
  mainBody w (mkMachine [] [] 0) =
  bind (loadTextures w)
    (fun _ =>
       vertexShader <- compileStage w VERTEX_SHADER vertex_shader ;;
       fragmentShader <- compileStage w FRAGMENT_SHADER fragment_shader ;;
       shaderProgram <- linkProgram vertexShader fragmentShader ;;
       describeVertices w shaderProgram ;;
       bindSamplers w shaderProgram ;;
       call (GetUniformLocation shaderProgram "projection") ;;
       call (UniformMatrix4fv (uniform_location w "projection") false
               projectionMat) ;;
       (let '(cs, st, ph) := frameLoop w shaderProgram (events w) loopEntry in
        emit cs ;; ret (st, ph)))
    (mkMachine (window_steps ++ geometry_steps 1%nat 2%nat 3%nat)
       [DeleteBuffer 3%nat; DeleteBuffer 2%nat; DeleteVertexArray 1%nat;
        Terminate]
       3).
Proof.
  intros Hg Hw Hi. unfold mainBody. cbv [bind Monad_M].
  rewrite (glInit_ok w _ Hg Hw Hi). cbv [check ret Monad_M defer].
  rewrite uploadGeometry_run. cbn [calls defers names app]. reflexivity.
Qed.

(** The run of [main], whatever the world. *)
Lemma main_expected (w : World) : main w = expected_run w.
Proof.
  unfold expected_run, startup.
  destruct (glfw_Init w) eqn:Hg; cbn [negb].
  2:{ apply main_glInit_fails. rewrite (glInit_no_glfw w _ Hg). reflexivity. }
  destruct (glfw_CreateWindow w) as [e|] eqn:Hw.
  { apply main_glInit_fails. rewrite (glInit_no_window w e _ Hg Hw).
    reflexivity. }
  destruct (gl_Init w =? 0)%Z eqn:Hi; cbn [negb].
  2:{ apply Z.eqb_neq in Hi. apply main_glInit_fails.
      rewrite (glInit_no_opengl w _ Hg Hw Hi). reflexivity. }
  apply Z.eqb_eq in Hi.
  destruct (loadImage w "sloth_n_banana.jpg") as [e1|image1] eqn:H1.
  { unfold main. rewrite (mainBody_to_textures w Hg Hw Hi).
    unfold loadTextures. cbv [bind Monad_M].
    rewrite (loadTexture_fail w _ TEXTURE0 e1 _ H1).
    cbn [calls defers names]. rewrite <- !app_assoc. reflexivity. }
  destruct (loadImage w "sloth_n_kebab.jpg") as [e2|image2] eqn:H2.
  { unfold main. rewrite (mainBody_to_textures w Hg Hw Hi).
    unfold loadTextures. cbv [bind Monad_M].
    rewrite (loadTexture_ok w _ TEXTURE0 image1 _ H1).
    rewrite (loadTexture_fail w _ TEXTURE1 e2 _ H2).
    cbn [calls defers names]. rewrite <- !app_assoc. reflexivity. }
  destruct (compile_status w VERTEX_SHADER vertex_shader =? 0)%Z eqn:Hv.
  { apply Z.eqb_eq in Hv.
    unfold main. rewrite (mainBody_to_textures w Hg Hw Hi).
    cbv [bind Monad_M].
    rewrite (loadTextures_ok w image1 image2 _ H1 H2).
    rewrite (compileStage_fail w VERTEX_SHADER _ _ Hv).
    cbn [calls defers names]. rewrite <- !app_assoc. reflexivity. }
  apply Z.eqb_neq in Hv.
  destruct (compile_status w FRAGMENT_SHADER fragment_shader =? 0)%Z eqn:Hf.
  { apply Z.eqb_eq in Hf.
    unfold main. rewrite (mainBody_to_textures w Hg Hw Hi).
    cbv [bind Monad_M].
    rewrite (loadTextures_ok w image1 image2 _ H1 H2).
    rewrite (compileStage_ok w VERTEX_SHADER _ _ Hv). cbn [calls defers names].
    rewrite (compileStage_fail w FRAGMENT_SHADER _ _ Hf).
    cbn [calls defers names]. rewrite <- !app_assoc. reflexivity. }
  apply Z.eqb_neq in Hf.
  apply main_run. repeat split; assumption.
Qed.

End Failures.

Lemma pick_app {A B : Type} (f : A -> option B) (l1 l2 : list A) :
  pick f (l1 ++ l2) = pick f l1 ++ pick f l2.
Proof.
  induction l1 as [|a l1 IH]; [reflexivity|].
  cbn [app pick]. destruct (f a); rewrite IH; reflexivity.
Qed.

(** The loop creates nothing, deletes nothing and does not terminate
    GLFW. *)
Lemma frameLoop_inert {F : Type} `{Float64 F} (w : World) (p : Program)
    (polls : list (list Event)) :
  forall st : State F,
    created (fst (fst (frameLoop w p polls st))) = []
    /\ released (fst (fst (frameLoop w p polls st))) = []
    /\ filter is_terminate (fst (fst (frameLoop w p polls st))) = [].
Proof.
  induction polls as [|evs rest IH]; intros st;
    (destruct (shouldClose st) eqn:Ec;
     [rewrite (frameLoop_closed w p _ st Ec); cbn; auto|]).
  - simpl. rewrite Ec. cbn. auto.
  - rewrite frameLoop_step by exact Ec.
    destruct (IH (fst (frame w p evs st))) as (Hc & Hr & Ht).
    destruct (frameLoop w p rest (fst (frame w p evs st))) as [[cs st'] ph].
    cbn [fst snd] in *. unfold created, released in *.
    rewrite !pick_app, filter_app, Hc, Hr, Ht. cbn. auto.
Qed.

(** ** Startup failures *)

(** [main] panics exactly when a startup step fails: GLFW, the window,
    the OpenGL loader, one of the two image files or one of the two
    shaders.  A run that panics has drawn nothing; a run that has drawn
    something got through all of startup; once the loop has begun [main]
    returns or is still running. *)
Theorem panics_exactly_when_startup_fails :
  forall (F : Type) (A : Float64 F) (w : World),
    ((exists e : Go.error, outcome (@main F A w) = Panicked e)
     <-> ~ exists image1 image2 : NRGBA, startup_succeeds w image1 image2)
    /\ (forall e : Go.error,
          outcome (@main F A w) = Panicked e ->
          draws (trace (@main F A w)) = 0%nat /\ last (@main F A w) = None)
    /\ ((0 < draws (trace (@main F A w)))%nat ->
        exists image1 image2 : NRGBA, startup_succeeds w image1 image2).
Proof.
  intros F A w. rewrite main_expected. unfold expected_run.
  destruct (startup w) as [|e| |e|i1 e|i1 i2|i1 i2|i1 i2] eqn:Es;
    try (apply startup_started in Es;
         destruct (snd (frameLoop w 8%nat (events w) loopEntry));
         cbn [outcome trace last];
         (split; [split; [intros [e He]; discriminate He
                         | intros Hn; exfalso; apply Hn; eauto]|]);
         (split; [intros e He; discriminate He | intros _; eauto]));
    cbn [outcome trace last];
    (assert (Hno : ~ exists image1 image2 : NRGBA,
                     startup_succeeds w image1 image2)
       by (intros (j1 & j2 & Hs); apply startup_started in Hs;
           rewrite Es in Hs; discriminate Hs));
    (split; [split; [intros _; exact Hno | intros _; eauto]|]);
    (split; [intros e' _; split; reflexivity
            | intros Hd; exfalso; revert Hd;
              change (~ (0 < 0)%nat); apply Nat.lt_irrefl]).
Qed.

(** When [glInit] fails [main] panics with its error and calls nothing
    more: no object is created and, nothing being deferred yet, GLFW is
    not terminated, also when it was initialised and only the window or
    the OpenGL loader failed. *)
Theorem window_failure_ends_the_run :
  forall (F : Type) (A : Float64 F) (w : World),
    (glfw_Init w = false ->
     @main F A w =
     mkRun (Panicked "Can't initialise GLFW!"%string)
       [SetErrorCallback; glfwInit] None)
    /\ (forall e : Go.error,
          glfw_Init w = true -> glfw_CreateWindow w = Some e ->
          @main F A w =
          mkRun (Panicked e)
            [ SetErrorCallback; glfwInit;
              WindowHint ContextVersionMajor (HintInt 3);
              WindowHint ContextVersionMinor (HintInt 2);
              WindowHint OpenglProfile OpenglCoreProfile;
              WindowHint OpenglForwardCompatible GL_TRUE;
              CreateWindow 640 480 "OpenGL Textures" ]
            None)
    /\ (glfw_Init w = true -> glfw_CreateWindow w = None ->
        gl_Init w <> 0%Z ->
        @main F A w =
        mkRun (Panicked "Can't initialise OpenGL."%string)
          ([ SetErrorCallback; glfwInit;
             WindowHint ContextVersionMajor (HintInt 3);
             WindowHint ContextVersionMinor (HintInt 2);
             WindowHint OpenglProfile OpenglCoreProfile;
             WindowHint OpenglForwardCompatible GL_TRUE;
             CreateWindow 640 480 "OpenGL Textures" ]
           ++ [SetKeyCallback; MakeContextCurrent; glInitCall])
          None).
Proof.
  intros F A w. rewrite main_expected. unfold expected_run, startup.
  split; [|split].
  - intros Hg. rewrite Hg. reflexivity.
  - intros e Hg Hw. rewrite Hg, Hw. reflexivity.
  - intros Hg Hw Hi. apply Z.eqb_neq in Hi. rewrite Hg, Hw, Hi. reflexivity.
Qed.

Lemma window_failure_witness :
  @main float binary64
    (startup_world false None 0 (fun _ => None) (fun _ _ => 1%Z))
  = mkRun (Panicked "Can't initialise GLFW!"%string)
      [SetErrorCallback; glfwInit] None.
Proof.
  apply (window_failure_ends_the_run float binary64
           (startup_world false None 0 (fun _ => None) (fun _ _ => 1%Z))).
  reflexivity.
Defined.

(** When an image file fails to load [main] panics with the loader's
    error.  What was created before is released, latest first, and GLFW
    is terminated last; the texture object generated for the failed load
    (it is generated before the file is opened) is never deleted. *)
Theorem texture_failure_leaks_its_texture :
  forall (F : Type) (A : Float64 F) (w : World),
    (forall e : Go.error,
        startup w = NoTexture1 e ->
        outcome (@main F A w) = Panicked e
        /\ created (trace (@main F A w))
           = [ObjVertexArray 1; ObjBuffer 2; ObjBuffer 3; ObjTexture 4]
        /\ released (trace (@main F A w))
           = [ObjBuffer 3; ObjBuffer 2; ObjVertexArray 1]
        /\ exists before : list (Call F),
             trace (@main F A w) = before ++ [Terminate]
             /\ filter is_terminate before = [])
    /\ (forall (image1 : NRGBA) (e : Go.error),
          startup w = NoTexture2 image1 e ->
          outcome (@main F A w) = Panicked e
          /\ created (trace (@main F A w))
             = [ ObjVertexArray 1; ObjBuffer 2; ObjBuffer 3; ObjTexture 4;
                 ObjTexture 5 ]
          /\ released (trace (@main F A w))
             = [ObjTexture 4; ObjBuffer 3; ObjBuffer 2; ObjVertexArray 1]
          /\ exists before : list (Call F),
               trace (@main F A w) = before ++ [Terminate]
               /\ filter is_terminate before = []).
Proof.
  intros F A w. rewrite main_expected. unfold expected_run.
  split.
  - intros e Hs. rewrite Hs. cbn [outcome trace].
    repeat split.
    eexists. split; [|shelve]. rewrite !app_assoc.
    change [DeleteBuffer 3%nat; DeleteBuffer 2%nat; DeleteVertexArray 1%nat;
            @Terminate F]
      with ([DeleteBuffer 3%nat; DeleteBuffer 2%nat; DeleteVertexArray 1%nat]
            ++ [@Terminate F]).
    rewrite app_assoc. reflexivity.
    Unshelve. reflexivity.
  - intros image1 e Hs. rewrite Hs. cbn [outcome trace].
    repeat split.
    eexists. split; [|shelve]. rewrite !app_assoc.
    change [DeleteTexture 4%nat; DeleteBuffer 3%nat; DeleteBuffer 2%nat;
            DeleteVertexArray 1%nat; @Terminate F]
      with ([DeleteTexture 4%nat; DeleteBuffer 3%nat; DeleteBuffer 2%nat;
             DeleteVertexArray 1%nat] ++ [@Terminate F]).
    rewrite app_assoc. reflexivity.
    Unshelve. reflexivity.
Qed.

Lemma texture_failure_witness :
  outcome (@main float binary64
             (startup_world true None 0 no_kebab (fun _ _ => 1%Z)))
  = Panicked "open sloth_n_kebab.jpg: no such file or directory"%string.
Proof.
  apply (proj2 (texture_failure_leaks_its_texture float binary64
                  (startup_world true None 0 no_kebab (fun _ _ => 1%Z)))
           sample_image).
  reflexivity.
Defined.

(** When a shader is rejected [main] panics with the compile error,
    having made exactly the calls listed.  What was created before is
    released, latest first, and GLFW is terminated by the last call of the
    run and by no other; the rejected shader, whose release is deferred
    only after the check, is never deleted, no program is created and
    nothing is drawn. *)
Theorem rejected_shader_panics :
  forall (F : Type) (A : Float64 F) (w : World) (image1 image2 : NRGBA),
    (startup w = NoVertexShader image1 image2 ->
     outcome (@main F A w) = Panicked (compile_error_text vertex_shader)
     /\ trace (@main F A w)
        = window_steps ++ geometry_steps 1%nat 2%nat 3%nat
          ++ texture_load_steps TEXTURE0 4%nat image1
          ++ texture_load_steps TEXTURE1 5%nat image2
          ++ compile_steps VERTEX_SHADER 6%nat vertex_shader
          ++ [ DeleteTexture 5%nat; DeleteTexture 4%nat; DeleteBuffer 3%nat;
               DeleteBuffer 2%nat; DeleteVertexArray 1%nat; Terminate ]
     /\ created (trace (@main F A w))
        = [ ObjVertexArray 1; ObjBuffer 2; ObjBuffer 3; ObjTexture 4;
            ObjTexture 5; ObjShader 6 ]
     /\ released (trace (@main F A w))
        = [ ObjTexture 5; ObjTexture 4; ObjBuffer 3; ObjBuffer 2;
            ObjVertexArray 1 ]
     /\ draws (trace (@main F A w)) = 0%nat
     /\ List.last (trace (@main F A w)) SetErrorCallback = Terminate
     /\ exists before : list (Call F),
          trace (@main F A w) = before ++ [Terminate]
          /\ filter is_terminate before = [])
    /\ (startup w = NoFragmentShader image1 image2 ->
        outcome (@main F A w) = Panicked (compile_error_text fragment_shader)
        /\ trace (@main F A w)
           = window_steps ++ geometry_steps 1%nat 2%nat 3%nat
             ++ texture_load_steps TEXTURE0 4%nat image1
             ++ texture_load_steps TEXTURE1 5%nat image2
             ++ compile_steps VERTEX_SHADER 6%nat vertex_shader
             ++ compile_steps FRAGMENT_SHADER 7%nat fragment_shader
             ++ [ DeleteShader 6%nat; DeleteTexture 5%nat; DeleteTexture 4%nat;
                  DeleteBuffer 3%nat; DeleteBuffer 2%nat;
                  DeleteVertexArray 1%nat; Terminate ]
        /\ created (trace (@main F A w))
           = [ ObjVertexArray 1; ObjBuffer 2; ObjBuffer 3; ObjTexture 4;
               ObjTexture 5; ObjShader 6; ObjShader 7 ]
        /\ released (trace (@main F A w))
           = [ ObjShader 6; ObjTexture 5; ObjTexture 4; ObjBuffer 3;
               ObjBuffer 2; ObjVertexArray 1 ]
        /\ draws (trace (@main F A w)) = 0%nat
        /\ List.last (trace (@main F A w)) SetErrorCallback = Terminate
        /\ exists before : list (Call F),
             trace (@main F A w) = before ++ [Terminate]
             /\ filter is_terminate before = []).
Proof.
  intros F A w image1 image2. rewrite main_expected. unfold expected_run.
  split; intros Hs; rewrite Hs; cbn [outcome trace];
    do 6 (split; [reflexivity|]).
  - exists (window_steps ++ geometry_steps 1%nat 2%nat 3%nat
            ++ texture_load_steps TEXTURE0 4%nat image1
            ++ texture_load_steps TEXTURE1 5%nat image2
            ++ compile_steps VERTEX_SHADER 6%nat vertex_shader
            ++ [ DeleteTexture 5%nat; DeleteTexture 4%nat; DeleteBuffer 3%nat;
                 DeleteBuffer 2%nat; DeleteVertexArray 1%nat ]).
    split; [rewrite <- !app_assoc|]; reflexivity.
  - exists (window_steps ++ geometry_steps 1%nat 2%nat 3%nat
            ++ texture_load_steps TEXTURE0 4%nat image1
            ++ texture_load_steps TEXTURE1 5%nat image2
            ++ compile_steps VERTEX_SHADER 6%nat vertex_shader
            ++ compile_steps FRAGMENT_SHADER 7%nat fragment_shader
            ++ [ DeleteShader 6%nat; DeleteTexture 5%nat; DeleteTexture 4%nat;
                 DeleteBuffer 3%nat; DeleteBuffer 2%nat;
                 DeleteVertexArray 1%nat ]).
    split; [rewrite <- !app_assoc|]; reflexivity.
Qed.

Lemma rejected_shader_witness :
  outcome (@main float binary64
             (startup_world true None 0 (fun _ => None) rejects_fragment))
  = Panicked (compile_error_text fragment_shader)
  /\ List.last
       (trace (@main float binary64
                 (startup_world true None 0 (fun _ => None) rejects_fragment)))
       SetErrorCallback
     = Terminate.
Proof.
  destruct (proj2 (rejected_shader_panics float binary64
                     (startup_world true None 0 (fun _ => None)
                        rejects_fragment)
                     sample_image sample_image) eq_refl)
    as (Ho & _ & _ & _ & _ & Hl & _).
  split; [exact Ho | exact Hl].
Defined.

(** ** Releases *)

(** When [main] returns, the eight objects it created (vertex array, two
    buffers, two textures, two shaders, program) are deleted once each,
    in the reverse order of their creation, and the last call of the run
    is the one that terminates GLFW, made once. *)
Theorem clean_exit_releases_everything :
  forall (F : Type) (A : Float64 F) (w : World),
    outcome (@main F A w) = Returned ->
    created (trace (@main F A w))
    = [ ObjVertexArray 1; ObjBuffer 2; ObjBuffer 3; ObjTexture 4; ObjTexture 5;
        ObjShader 6; ObjShader 7; ObjProgram 8 ]
    /\ released (trace (@main F A w)) = rev (created (trace (@main F A w)))
    /\ (exists before : list (Call F),
          trace (@main F A w) = before ++ [Terminate]
          /\ filter is_terminate before = [])
    /\ (exists st : State F,
          last (@main F A w) = Some st /\ shouldClose st = true).
Proof.
  intros F A w. rewrite main_expected. unfold expected_run.
  destruct (startup w) as [|e| |e|i1 e|i1 i2|i1 i2|i1 i2] eqn:Es;
    cbn [outcome]; try discriminate.
  destruct (frameLoop_inert w 8%nat (events w) (@loopEntry F A))
    as (Hc & Hr & Ht).
  destruct (@frameLoop_played F A w 8%nat (events w) loopEntry eq_refl)
    as (_ & _ & Hp & Hs).
  destruct (snd (frameLoop w 8%nat (events w) loopEntry)) eqn:Eph;
    cbn [outcome]; try discriminate.
  intros _. cbn [trace last].
  assert (Hcr : created
                  ((startup_steps w i1 i2
                    ++ fst (fst (frameLoop w 8%nat (events w) loopEntry)))
                   ++ teardown_steps)
                = [ ObjVertexArray 1; ObjBuffer 2; ObjBuffer 3; ObjTexture 4;
                    ObjTexture 5; ObjShader 6; ObjShader 7; ObjProgram 8 ]).
  { unfold created in *. rewrite !pick_app, Hc. reflexivity. }
  split; [exact Hcr|]. split; [|split].
  - rewrite Hcr. unfold released in *. rewrite !pick_app, Hr. reflexivity.
  - exists ((startup_steps w i1 i2
             ++ fst (fst (frameLoop w 8%nat (events w) loopEntry)))
            ++ removelast teardown_steps).
    split.
    + rewrite <- !app_assoc. reflexivity.
    + rewrite !filter_app, Ht. reflexivity.
  - eexists. split; [reflexivity|]. rewrite Hs.
    destruct (quit_seen (events w)); [reflexivity | discriminate Hp].
Qed.

Lemma clean_exit_witness :
  released (trace (@main float binary64 (sample_world three_frames)))
  = rev (created (trace (@main float binary64 (sample_world three_frames)))).
Proof.
  apply (clean_exit_releases_everything float binary64
           (sample_world three_frames)).
  reflexivity.
Defined.

(** Whatever the world and however the run ends, the calls of [main]
    fall into a first part that deletes nothing and a second part that
    creates nothing; the objects deleted are, in order, the reverse of the
    first [r] objects created, for some [r] not above the number created:
    every deletion answers one creation made before it, latest first, and
    no creation is answered twice; and GLFW is terminated at most once, by
    the last call of the run. *)
Theorem releases_mirror_creations :
  forall (F : Type) (A : Float64 F) (w : World),
    (exists r : nat,
        (r <= List.length (created (trace (@main F A w))))%nat
        /\ released (trace (@main F A w))
           = rev (firstn r (created (trace (@main F A w)))))
    /\ (exists pre post : list (Call F),
          trace (@main F A w) = pre ++ post
          /\ released pre = []
          /\ created post = [])
    /\ (filter is_terminate (trace (@main F A w)) = []
        \/ filter is_terminate (trace (@main F A w)) = [Terminate]
           /\ List.last (trace (@main F A w)) SetErrorCallback = Terminate).
Proof.
  intros F A w. rewrite main_expected. unfold expected_run.
  destruct (frameLoop_inert w 8%nat (events w) (@loopEntry F A))
    as (Hc & Hr & Ht).
  assert (Hlast : forall cs : list (Call F),
             List.last (cs ++ teardown_steps) SetErrorCallback = Terminate).
  { intros cs.
    change (@teardown_steps F)
      with (removelast (@teardown_steps F) ++ [Terminate]).
    rewrite app_assoc. apply last_last. }
  destruct (startup w) as [|e| |e|i1 e|i1 i2|i1 i2|i1 i2] eqn:Es;
    [| | | | | | |
     destruct (snd (frameLoop w 8%nat (events w) loopEntry))];
    cbn [trace]; (split; [|split]).
  (* GLFW does not start *)
  - exists 0%nat. split; [apply Nat.le_0_l | reflexivity].
  - eexists. exists []. split; [symmetry; apply app_nil_r|]. split; reflexivity.
  - left. reflexivity.
  (* no window *)
  - exists 0%nat. split; [apply Nat.le_0_l | reflexivity].
  - eexists. exists []. split; [symmetry; apply app_nil_r|]. split; reflexivity.
  - left. reflexivity.
  (* no OpenGL *)
  - exists 0%nat. split; [apply Nat.le_0_l | reflexivity].
  - eexists. exists []. split; [symmetry; apply app_nil_r|]. split; reflexivity.
  - left. reflexivity.
  (* first texture *)
  - exists 3%nat. split; [cbv; lia | reflexivity].
  - exists (window_steps ++ geometry_steps 1%nat 2%nat 3%nat
            ++ [GenTexture 4%nat]),
      [ DeleteBuffer 3%nat; DeleteBuffer 2%nat; DeleteVertexArray 1%nat;
        Terminate ].
    split; [rewrite <- !app_assoc; reflexivity|]. split; reflexivity.
  - right. split; reflexivity.
  (* second texture *)
  - exists 4%nat. split; [cbv; lia | reflexivity].
  - exists (window_steps ++ geometry_steps 1%nat 2%nat 3%nat
            ++ texture_load_steps TEXTURE0 4%nat i1
            ++ [GenTexture 5%nat]),
      [ DeleteTexture 4%nat; DeleteBuffer 3%nat; DeleteBuffer 2%nat;
        DeleteVertexArray 1%nat; Terminate ].
    split; [rewrite <- !app_assoc; reflexivity|]. split; reflexivity.
  - right. split; reflexivity.
  (* vertex shader *)
  - exists 5%nat. split; [cbv; lia | reflexivity].
  - exists (window_steps ++ geometry_steps 1%nat 2%nat 3%nat
            ++ texture_load_steps TEXTURE0 4%nat i1
            ++ texture_load_steps TEXTURE1 5%nat i2
            ++ compile_steps VERTEX_SHADER 6%nat vertex_shader),
      [ DeleteTexture 5%nat; DeleteTexture 4%nat; DeleteBuffer 3%nat;
        DeleteBuffer 2%nat; DeleteVertexArray 1%nat; Terminate ].
    split; [rewrite <- !app_assoc; reflexivity|]. split; reflexivity.
  - right. split; reflexivity.
  (* fragment shader *)
  - exists 6%nat. split; [cbv; lia | reflexivity].
  - exists (window_steps ++ geometry_steps 1%nat 2%nat 3%nat
            ++ texture_load_steps TEXTURE0 4%nat i1
            ++ texture_load_steps TEXTURE1 5%nat i2
            ++ compile_steps VERTEX_SHADER 6%nat vertex_shader
            ++ compile_steps FRAGMENT_SHADER 7%nat fragment_shader),
      [ DeleteShader 6%nat; DeleteTexture 5%nat; DeleteTexture 4%nat;
        DeleteBuffer 3%nat; DeleteBuffer 2%nat; DeleteVertexArray 1%nat;
        Terminate ].
    split; [rewrite <- !app_assoc; reflexivity|]. split; reflexivity.
  - right. split; reflexivity.
  (* the loop is still running *)
  - exists 0%nat. split; [apply Nat.le_0_l|].
    unfold released in *. rewrite pick_app, Hr. reflexivity.
  - eexists. exists []. split; [symmetry; apply app_nil_r|].
    split; [|reflexivity]. unfold released in *. rewrite pick_app, Hr.
    reflexivity.
  - left. rewrite filter_app, Ht. reflexivity.
  (* the window should close *)
  - exists 0%nat. split; [apply Nat.le_0_l|].
    unfold released in *. rewrite pick_app, Hr. reflexivity.
  - eexists. exists []. split; [symmetry; apply app_nil_r|].
    split; [|reflexivity]. unfold released in *. rewrite pick_app, Hr.
    reflexivity.
  - left. rewrite filter_app, Ht. reflexivity.
  (* the loop has ended *)
  - exists 8%nat. unfold created, released in *.
    rewrite !pick_app, Hc, Hr. split; [cbv; lia | reflexivity].
  - exists (startup_steps w i1 i2
            ++ fst (fst (frameLoop w 8%nat (events w) loopEntry))),
      teardown_steps.
    split; [reflexivity|]. split; [|reflexivity].
    unfold released in *. rewrite pick_app, Hr. reflexivity.
  - right. rewrite !filter_app, Ht. split; [reflexivity | apply Hlast].
Qed.

(** ** The length of a run *)

Lemma frames_played_le (polls : list (list Event)) :
  (frames_played polls <= List.length polls)%nat.
Proof.
  induction polls as [|evs rest IH]; [auto|].
  cbn [frames_played List.length]. destruct (quits evs); lia.
Qed.

(** A running loop makes one iteration per poll up to and including the
    first poll that delivers a quit, each of nine calls with one draw
    among them; it ends exactly if such a poll came, with the close flag
    up, and is otherwise still running with the flag down.  Polls after
    the first quit are never made. *)
Theorem loop_plays_until_first_quit :
  forall (F : Type) (A : Float64 F) (w : World) (p : Program)
    (polls : list (list Event)) (st : State F),
    shouldClose st = false ->
    draws (fst (fst (frameLoop w p polls st))) = frames_played polls
    /\ List.length (fst (fst (frameLoop w p polls st)))
       = (9 * frames_played polls)%nat
    /\ snd (frameLoop w p polls st)
       = (if quit_seen polls then Terminated else Running)
    /\ shouldClose (snd (fst (frameLoop w p polls st))) = quit_seen polls
    /\ (frames_played polls <= List.length polls)%nat
    /\ (forall more : list (list Event),
          quit_seen polls = true ->
          frameLoop w p (polls ++ more) st = frameLoop w p polls st).
Proof.
  intros F A w p polls st Ec.
  destruct (frameLoop_played w p polls st Ec) as (Hd & Hl & Hp & Hs).
  repeat split; auto using frames_played_le.
  intros more Hq. clear Hd Hl Hp Hs. revert st Ec.
  induction polls as [|evs rest IH]; intros st Ec; [discriminate Hq|].
  cbn [app]. rewrite !frameLoop_step by exact Ec.
  assert (Hc : shouldClose (fst (frame w p evs st)) = quits evs)
    by (rewrite frame_state; cbn; rewrite Ec; reflexivity).
  destruct (quits evs) eqn:Eq.
  - rewrite !(frameLoop_closed w p _ _ Hc). reflexivity.
  - cbn [quit_seen existsb] in Hq. rewrite Eq in Hq. cbn [orb] in Hq.
    rewrite (IH Hq _ Hc). reflexivity.
Qed.

Lemma loop_plays_witness :
  draws (fst (fst (frameLoop (sample_world []) 8%nat
                     [[toggle_press]; [quit_press; toggle_press]; []; []]
                     (@loopEntry float binary64))))
  = 2%nat.
Proof.
  apply (loop_plays_until_first_quit float binary64 (sample_world []) 8%nat
           [[toggle_press]; [quit_press; toggle_press]; []; []] loopEntry).
  reflexivity.
Defined.

(** When startup succeeds [main] returns exactly if some poll delivers a
    quit and is otherwise still running when the input ends; its trace
    holds one draw call per iteration made, that is one per poll up to
    and including the first that delivers a quit. *)
Theorem main_draws_one_frame_per_poll :
  forall (F : Type) (A : Float64 F) (w : World) (image1 image2 : NRGBA),
    startup_succeeds w image1 image2 ->
    outcome (@main F A w)
    = (if quit_seen (events w) then Returned else StillRunning)
    /\ draws (trace (@main F A w)) = frames_played (events w)
    /\ List.length (trace (@main F A w))
       = (List.length (@startup_steps F w image1 image2)
          + 9 * frames_played (events w)
          + (if quit_seen (events w) then 9 else 0))%nat.
Proof.
  intros F A w image1 image2 Hs.
  rewrite (main_run w image1 image2 Hs).
  destruct (@frameLoop_played F A w 8%nat (events w) loopEntry eq_refl)
    as (Hd & Hl & Hp & _).
  rewrite Hp.
  destruct (quit_seen (events w)); cbn [outcome trace];
    rewrite ?draws_app, ?length_app, Hd, Hl, draws_startup;
    repeat split; cbn [draws teardown_steps filter is_draw List.length]; lia.
Qed.

Lemma main_draws_witness :
  draws (trace (@main float binary64 (sample_world three_frames))) = 3%nat.
Proof.
  apply (main_draws_one_frame_per_poll float binary64
           (sample_world three_frames) sample_image sample_image).
  apply sample_world_starts.
Defined.

(** ** The accumulator over any input *)

(** However presses of R are spread over the polls, what a running loop
    leaves in [spinCount] is the initial value advanced once per
    iteration that found [rotate] on, and what it leaves in [modelMat] is
    the matrix it started with if there was no such iteration, otherwise
    the rotation built from the accumulator as it stood before the last
    of them.  In real arithmetic the accumulator is the initial value
    plus 0.0005 times the number of those iterations. *)
Theorem spin_counts_enabled_frames :
  (forall (F : Type) (A : Float64 F) (w : World) (p : Program)
      (polls : list (list Event)) (st : State F),
      shouldClose st = false ->
      spinCount (snd (fst (frameLoop w p polls st)))
      = spin_after (enabled_frames (rotate st) polls) (spinCount st)
      /\ modelMat (snd (fst (frameLoop w p polls st)))
         = match enabled_frames (rotate st) polls with
           | O => modelMat st
           | S k =>
               Rotation
                 (f64_to_f32 (f64_mul (spin_after k (spinCount st)) f64_pi))
                 (mkVec3 0 0 1)
           end)
  /\ (forall (w : World) (p : Program) (polls : list (list Event))
        (st : State R),
      shouldClose st = false ->
      spinCount (snd (fst (frameLoop w p polls st)))
      = (spinCount st
         + INR (enabled_frames (rotate st) polls) * 0.0005)%R)
  /\ (forall (r : bool) (polls : list (list Event)),
        (enabled_frames r polls <= frames_played polls)%nat).
Proof.
  split; [|split].
  - intros F A w p polls st Ec. apply frameLoop_enabled, Ec.
  - intros w p polls st Ec.
    rewrite (proj1 (frameLoop_enabled w p polls st Ec)).
    apply exact_spin_after.
  - intros r polls. revert r.
    induction polls as [|evs rest IH]; intros r; [auto|].
    cbn [enabled_frames frames_played].
    pose proof (IH (xorb r (Nat.odd (toggles evs)))) as IH'.
    destruct (quits evs); destruct r; cbn [Nat.add]; lia.
Qed.

Lemma spin_counts_witness :
  spinCount
    (snd (fst (frameLoop (sample_world []) 8%nat
                 [[toggle_press]; []; [toggle_press; toggle_press; toggle_press];
                  []; [quit_press]; []]
                 (mkState false true 0%R (@Identity R)))))
  = (0 + INR 3 * 0.0005)%R.
Proof.
  apply (proj1 (proj2 spin_counts_enabled_frames) (sample_world []) 8%nat
           [[toggle_press]; []; [toggle_press; toggle_press; toggle_press];
            []; [quit_press]; []]
           (mkState false true 0%R (@Identity R))).
  reflexivity.
Defined.

(** ** The size of the uploaded image *)

(** Whatever kind of image the file decodes to and wherever its
    (well-formed) bounds lie, the texture is uploaded with the decoded
    image's width and height: an NRGBA image is passed on with its own pixels, any other is
    redrawn into a fresh NRGBA image of the same size placed at the
    origin.  When the file cannot be opened or decoded the error is
    returned beside the texture already generated, and nothing but that
    generation has been called. *)
Theorem texture_upload_keeps_decoded_size :
  forall (F : Type) (w : World) (filename : string) (texture_id : GLenum)
    (m : Machine F),
    (forall img : Image,
        os_Open w filename = None ->
        image_Decode w filename = inr img ->
        (MinX (Bounds img) <= MaxX (Bounds img))%Z ->
        (MinY (Bounds img) <= MaxY (Bounds img))%Z ->
        loadTextureFromImage w filename texture_id m =
        (Ok (S (names m), None),
         mkMachine
           (calls m
            ++ [ GenTexture (S (names m));
                 ActiveTexture texture_id;
                 BindTexture TEXTURE_2D (S (names m));
                 TexImage2D TEXTURE_2D 0 RGBA (Dx (Bounds img))
                   (Dy (Bounds img)) 0 RGBA UNSIGNED_BYTE
                   match img with
                   | ImageNRGBA n => Pix n
                   | ImageOther _ => draw_Draw w img
                   end ])
           (defers m) (S (names m)))
        /\ exists image : NRGBA,
             loadImage w filename = inr image
             /\ Dx (Rect image) = Dx (Bounds img)
             /\ Dy (Rect image) = Dy (Bounds img)
             /\ (forall b : Rectangle,
                   img = ImageOther b ->
                   MinX (Rect image) = 0%Z /\ MinY (Rect image) = 0%Z))
    /\ (forall e : Go.error,
          os_Open w filename = Some e
          \/ os_Open w filename = None /\ image_Decode w filename = inl e ->
          loadTextureFromImage w filename texture_id m =
          (Ok (S (names m), Some e),
           mkMachine (calls m ++ [GenTexture (S (names m))]) (defers m)
             (S (names m)))).
Proof.
  intros F w filename texture_id m. split.
  - intros img Ho Hd _ _.
    assert (Hl : loadImage w filename =
                 inr match img with
                     | ImageNRGBA n => n
                     | ImageOther _ =>
                         mkNRGBA (draw_Draw w img)
                           (image_Rect 0 0 (Dx (Bounds img)) (Dy (Bounds img)))
                     end)
      by (unfold loadImage; rewrite Ho, Hd; destruct img; reflexivity).
    split.
    + unfold loadTextureFromImage. rewrite Hl. run_block.
      destruct img as [n|b]; cbn [Rect Pix Bounds].
      * reflexivity.
      * unfold image_Rect, Dx, Dy. cbn [MaxX MinX MaxY MinY].
        rewrite !Z.sub_0_r. reflexivity.
    + eexists. split; [exact Hl|]. destruct img as [n|bounds];
        cbn [Rect Bounds].
      * repeat split; discriminate.
      * unfold image_Rect, Dx, Dy. cbn [MaxX MinX MaxY MinY].
        rewrite !Z.sub_0_r. repeat split; reflexivity.
  - intros e He.
    assert (Hl : loadImage w filename = inl e).
    { unfold loadImage. destruct He as [Ho|[Ho Hd]]; rewrite Ho; [reflexivity|].
      rewrite Hd. reflexivity. }
    unfold loadTextureFromImage. rewrite Hl. run_block. reflexivity.
Qed.

Lemma texture_upload_witness :
  exists image : NRGBA,
    loadImage (sample_world []) "sloth_n_banana.jpg" = inr image
    /\ Dx (Rect image) = 2%Z.
Proof.
  destruct (proj1 (texture_upload_keeps_decoded_size float (sample_world [])
                     "sloth_n_banana.jpg" TEXTURE0 (mkMachine [] [] 3))
              (ImageOther (mkRect 0 0 2 2)) eq_refl eq_refl
              ltac:(cbn; lia) ltac:(cbn; lia))
    as [_ (image & Hl & Hx & _)].
  exists image. split; [exact Hl | exact Hx].
Defined.
